(** * Circular-platform calculation engine (app_circular_platform_mvp.py)

    A shallow embedding of the deterministic part of the Streamlit script:
    the helpers [clamp] and [traffic_light], the monthly "core calculations"
    (script lines 163-196) and the admin pro forma loop with its cumulative
    columns (script lines 318-362).

    Numbers.  The script computes with Python floats.  Here every finite
    number is an exact rational ([Q]); rounding, overflow and NaN are outside
    the model.  The one non-finite value the script builds on purpose,
    [float("inf")] for the payback, is a constructor of [pyfloat].  Python's
    [/] raises [ZeroDivisionError] on a zero divisor, and indexing a data
    frame by a missing column raises [KeyError]; both are results of the
    error monad [result].

    Where the rounding of binary64 decides a property (the boundary of the
    yellow band, the sign and the NaN of the net profit behind the payback)
    the same code is embedded a second time on primitive binary64 floats,
    in the module [B64], and the property is settled there. *)

From Stdlib Require Import QArith Qminmax Qpower Lqa Lia List Bool Arith Znat.
From Stdlib Require PrimFloat.
Import (notations) PrimFloat.
From Stdlib Require Floats.
From Stdlib Require String.
Import (notations) String.
Import String.StringSyntax.
Import ListNotations.
Open Scope Q_scope.

(** ** Python values and exceptions *)

Inductive exn : Type :=
| ZeroDivisionError
| KeyError.

Inductive result (A : Type) : Type :=
| Ok (a : A)
| Raise (e : exn).

Arguments Ok {A} a.
Arguments Raise {A} e.

Definition bind {A B : Type} (m : result A) (k : A -> result B) : result B :=
  match m with
  | Ok a => k a
  | Raise e => Raise e
  end.

Notation "x <- m ;; k" := (bind m (fun x => k))
  (at level 61, m at next level, right associativity).

(** A float as the script can build one: a finite number or [float("inf")]. *)
Inductive pyfloat : Type :=
| Fin (q : Q)
| PosInf.

(** [math.isfinite] *)
Definition isfinite (x : pyfloat) : bool :=
  match x with
  | Fin _ => true
  | PosInf => false
  end.

(** [x / y] on floats. *)
Definition py_div (x y : Q) : result Q :=
  if Qeq_bool y 0 then Raise ZeroDivisionError else Ok (x / y).

(** ** Helpers (script lines 35-47) *)

(** [min(max(float(x), lo), hi)].  [Qmax a b] is [b] when [a < b] and [a]
    otherwise, [Qmin a b] is [b] when [b < a] and [a] otherwise, as Python's
    two-argument [max] and [min]. *)
Definition clamp (x lo hi : Q) : Q := Qmin (Qmax x lo) hi.

Inductive light : Type :=
| Green
| Yellow
| Red.

(** In exact arithmetic; [B64.traffic_light] is the same function with the
    rounded difference of binary64. *)
Definition traffic_light (value target warn_band : Q) : light :=
  if Qle_bool target value then Green
  else if Qle_bool (target - warn_band) value then Yellow
  else Red.

(** The keyword default of [traffic_light]. *)
Definition default_warn_band : Q := 0.03.

(** ** Shared baseline inputs (script lines 135-158)

    The values read from the sidebar widgets. *)
Record Inputs : Type := {
  sites : Q;
  lbs_per_site_month : Q;
  recovery_rate : Q;
  yield_rate : Q;
  downtime_rate : Q;
  scrap_rate : Q;
  sell_share : Q;
  sell_price_lb : Q;
  internal_value_lb : Q;
  disposal_avoid_lb : Q;
  carbon_value_lb : Q;
  op_cost_site_month : Q;
  capex_per_site : Q;
  trainees_per_site_year : Q;
  placement_rate : Q;
  avg_wage_uplift : Q
}.

(** The values the widgets start with. *)
Definition default_inputs : Inputs := {|
  sites := 1;
  lbs_per_site_month := 80000;
  recovery_rate := 0.90;
  yield_rate := 0.92;
  downtime_rate := 0.08;
  scrap_rate := 0.06;
  sell_share := 0.50;
  sell_price_lb := 10;
  internal_value_lb := 12;
  disposal_avoid_lb := 0.15;
  carbon_value_lb := 0.06;
  op_cost_site_month := 18000;
  capex_per_site := 120000;
  trainees_per_site_year := 80;
  placement_rate := 0.70;
  avg_wage_uplift := 8
|}.

(** ** Core calculations (monthly, scaled; script lines 163-196)

    One definition per script variable, under the script's name.  The module
    is never imported, so that [Core.S] does not hide the successor of
    [nat]. *)
Module Core.
Section Monthly.

Variable i : Inputs.

Definition W : Q := lbs_per_site_month i * sites i.
Definition R : Q := clamp (recovery_rate i) 0 1.
Definition Y : Q := clamp (yield_rate i) 0 1.
Definition D : Q := clamp (downtime_rate i) 0 1.
Definition S : Q := clamp (scrap_rate i) 0 1.

Definition recovered : Q := W * R.
Definition usable : Q := recovered * (1 - S).
Definition finished : Q := usable * Y * (1 - D).

Definition sold_lbs : Q := finished * clamp (sell_share i) 0 1.
Definition internal_lbs : Q := finished * (1 - clamp (sell_share i) 0 1).

Definition sell_rev : Q := sold_lbs * sell_price_lb i.
Definition internal_val : Q := internal_lbs * internal_value_lb i.
Definition disp_avoid : Q := recovered * disposal_avoid_lb i.
Definition carbon_val : Q := recovered * carbon_value_lb i.

Definition gross_value : Q := sell_rev + internal_val + disp_avoid + carbon_val.
Definition op_cost : Q := op_cost_site_month i * sites i.
Definition net_profit : Q := gross_value - op_cost.

Definition capex_total : Q := capex_per_site i * sites i.

(** [float("inf") if net_profit <= 0 else capex_total / net_profit], in
    exact arithmetic; [B64.payback_mo] is the same statement with the
    rounding and the NaN of binary64. *)
Definition payback_mo : result pyfloat :=
  if Qle_bool net_profit 0 then Ok PosInf
  else q <- py_div capex_total net_profit ;; Ok (Fin q).

Definition trainees_total_year : Q := trainees_per_site_year i * sites i.
Definition placed_total_year : Q := trainees_total_year * placement_rate i.

End Monthly.
End Core.

(** ** The material flow in binary64

    The same three stages (script lines 163-171) on IEEE 754 binary64
    numbers, the representation of a Python float, to evaluate the flow at
    given inputs with the rounding that the script has.  A decimal literal
    denotes the nearest binary64 number, as in Python. *)
Module Binary64.
Import PrimFloat.
#[local] Open Scope float_scope.
#[local] Set Warnings "-inexact-float".

Definition py_max (a b : float) : float := if ltb a b then b else a.
Definition py_min (a b : float) : float := if ltb b a then b else a.
Definition clamp (x lo hi : float) : float := py_min (py_max x lo) hi.

Record FlowInputs : Type := {
  sites : float;
  lbs_per_site_month : float;
  recovery_rate : float;
  yield_rate : float;
  downtime_rate : float;
  scrap_rate : float
}.

Definition W (i : FlowInputs) : float := lbs_per_site_month i * sites i.
Definition R (i : FlowInputs) : float := clamp (recovery_rate i) 0 1.
Definition Y (i : FlowInputs) : float := clamp (yield_rate i) 0 1.
Definition D (i : FlowInputs) : float := clamp (downtime_rate i) 0 1.
Definition S (i : FlowInputs) : float := clamp (scrap_rate i) 0 1.

Definition recovered (i : FlowInputs) : float := W i * R i.
Definition usable (i : FlowInputs) : float := recovered i * (1 - S i).
Definition finished (i : FlowInputs) : float := usable i * Y i * (1 - D i).

Definition default_inputs : FlowInputs := {|
  sites := 1;
  lbs_per_site_month := 80000;
  recovery_rate := 0.90;
  yield_rate := 0.92;
  downtime_rate := 0.08;
  scrap_rate := 0.06
|}.

End Binary64.

(** ** Process health lights (script lines 189-192, 228-231 and 258-261)

    Every call of [traffic_light] in the script passes the band 0.05. *)
Definition target_recovery : Q := 0.90.
Definition target_yield : Q := 0.92.
Definition target_downtime_max : Q := 0.08.
Definition target_scrap_max : Q := 0.07.

Definition recovery_light (i : Inputs) : light :=
  traffic_light (Core.R i) target_recovery 0.05.
Definition yield_light (i : Inputs) : light :=
  traffic_light (Core.Y i) target_yield 0.05.
Definition downtime_light (i : Inputs) : light :=
  traffic_light (1 - Core.D i) (1 - target_downtime_max) 0.05.
Definition scrap_light (i : Inputs) : light :=
  traffic_light (1 - Core.S i) (1 - target_scrap_max) 0.05.

(** ** Admin pro forma (script lines 305-362) *)

(** The pro forma widgets.  [years] is the slider's integer (3 to 5 in the
    script); the growth and reinvestment fields hold the widget values
    already divided by 100, as the script's variables do. *)
Record ProFormaInputs : Type := {
  years : nat;
  growth_sites : Q;
  growth_lbs : Q;
  growth_price : Q;
  growth_cost : Q;
  reinvest_rate : Q
}.

Definition default_pro_forma : ProFormaInputs := {|
  years := 5;
  growth_sites := 0.25;
  growth_lbs := 0.05;
  growth_price := 0.02;
  growth_cost := 0.03;
  reinvest_rate := 0.30
|}.

(** The four loop variables carried from one year to the next. *)
Record Running : Type := {
  sites_y : Q;
  lbs_site_y : Q;
  vpr : Q;
  op_cost_site_y : Q
}.

(** One dictionary appended to [rows]. *)
Record Row : Type := {
  Year : nat;
  Sites : Q;
  Annual_incoming_lbs : Q;
  Annual_recovered_lbs : Q;
  Gross_value : Q;
  Operating_cost : Q;
  Net_proceeds : Q;
  CapEx_new_sites : Q;
  Workforce_reinvest : Q
}.

(** [Series.cumsum()]: the running sum, first element unchanged. *)
Fixpoint cumsum_from (acc : Q) (xs : list Q) : list Q :=
  match xs with
  | [] => []
  | x :: t => (acc + x) :: cumsum_from (acc + x) t
  end.

Definition cumsum (xs : list Q) : list Q :=
  match xs with
  | [] => []
  | x :: t => x :: cumsum_from x t
  end.

(** The frame [pf]: the rows and the two columns added to them. *)
Record DataFrame : Type := {
  records : list Row;
  Cumulative_net_proceeds : list Q;
  Cumulative_workforce_reinvest : list Q
}.

Module ProForma.
Section Projection.

Variable i : Inputs.
Variable g : ProFormaInputs.

(** [0.0 if recovered <= 0 else gross_value / recovered] *)
Definition value_per_recovered_lb : result Q :=
  if Qle_bool (Core.recovered i) 0 then Ok 0
  else py_div (Core.gross_value i) (Core.recovered i).

Definition op_cost_per_site : Q := op_cost_site_month i * 12.
Definition capex_per_site_local : Q := capex_per_site i.

(** The loop variables before the first iteration. *)
Definition initial (v : Q) : Running := {|
  sites_y := sites i;
  lbs_site_y := lbs_per_site_month i;
  vpr := v;
  op_cost_site_y := op_cost_per_site
|}.

(** The four [*=] updates under [if y > 1]. *)
Definition grow (s : Running) : Running := {|
  sites_y := sites_y s * (1 + growth_sites g);
  lbs_site_y := lbs_site_y s * (1 + growth_lbs g);
  vpr := vpr s * (1 + growth_price g);
  op_cost_site_y := op_cost_site_y s * (1 + growth_cost g)
|}.

(** The conditional expression assigned to [capex_y], then its floor. *)
Definition capex_of (y : nat) (s : Running) : result Q :=
  c <- (if (y =? 1)%nat then Ok (sites_y s * capex_per_site_local)
        else q <- py_div (sites_y s) (1 + growth_sites g) ;;
             Ok ((sites_y s - q) * capex_per_site_local)) ;;
  Ok (Qmax c 0).

(** The row of year [y], from the loop variables as they are after the
    growth step. *)
Definition row_of (y : nat) (s : Running) : result Row :=
  let W_y := sites_y s * lbs_site_y s * 12 in
  let recovered_y := W_y * Core.R i in
  let gross_y := recovered_y * vpr s in
  let op_y := sites_y s * op_cost_site_y s in
  let net_y := gross_y - op_y in
  capex_y <- capex_of y s ;;
  let workforce_reinvest_y := Qmax net_y 0 * reinvest_rate g in
  Ok {| Year := y;
        Sites := sites_y s;
        Annual_incoming_lbs := W_y;
        Annual_recovered_lbs := recovered_y;
        Gross_value := gross_y;
        Operating_cost := op_y;
        Net_proceeds := net_y;
        CapEx_new_sites := capex_y;
        Workforce_reinvest := workforce_reinvest_y |}.

(** One iteration of [for y in range(1, years + 1)]. *)
Definition loop_body (y : nat) (st : Running * list Row)
  : result (Running * list Row) :=
  let s := if (1 <? y)%nat then grow (fst st) else fst st in
  r <- row_of y s ;;
  Ok (s, snd st ++ [r]).

Fixpoint for_years (ys : list nat) (st : Running * list Row)
  : result (Running * list Row) :=
  match ys with
  | [] => Ok st
  | y :: t => st' <- loop_body y st ;; for_years t st'
  end.

(** The loop variables and [rows] when the loop ends. *)
Definition loop : result (Running * list Row) :=
  v <- value_per_recovered_lb ;;
  for_years (seq 1 (years g)) (initial v, []).

(** [pd.DataFrame(rows)] and the two cumulative columns.  With no row the
    frame has no column, and [pf["Net proceeds"]] raises. *)
Definition pf : result DataFrame :=
  st <- loop ;;
  match snd st with
  | [] => Raise KeyError
  | rows =>
      Ok {| records := rows;
            Cumulative_net_proceeds := cumsum (map Net_proceeds rows);
            Cumulative_workforce_reinvest :=
              cumsum (map Workforce_reinvest rows) |}
  end.

End Projection.
End ProForma.

(** ** What the spec's projector describes

    The state the spec gives year [y]: the seed for year 1, and the state of
    the year before with every variable multiplied by one plus its growth
    rate for each later year. *)
Fixpoint spec_state (i : Inputs) (g : ProFormaInputs) (v : Q) (y : nat)
  : Running :=
  match y with
  | O => ProForma.initial i v
  | 1%nat => ProForma.initial i v
  | Datatypes.S y' => ProForma.grow g (spec_state i g v y')
  end.

(** The sum of a list of numbers. *)
Definition Qsum (xs : list Q) : Q := fold_right Qplus 0 xs.

(** ** Inputs that differ only in what the clamps absorb

    [same_clamped i j]: the two inputs agree on every field that the script
    reads as it is, and the five rates that the script passes through
    [clamp] agree after clamping. *)
Definition same_clamped (i j : Inputs) : Prop :=
  sites i = sites j /\
  lbs_per_site_month i = lbs_per_site_month j /\
  clamp (recovery_rate i) 0 1 = clamp (recovery_rate j) 0 1 /\
  clamp (yield_rate i) 0 1 = clamp (yield_rate j) 0 1 /\
  clamp (downtime_rate i) 0 1 = clamp (downtime_rate j) 0 1 /\
  clamp (scrap_rate i) 0 1 = clamp (scrap_rate j) 0 1 /\
  clamp (sell_share i) 0 1 = clamp (sell_share j) 0 1 /\
  sell_price_lb i = sell_price_lb j /\
  internal_value_lb i = internal_value_lb j /\
  disposal_avoid_lb i = disposal_avoid_lb j /\
  carbon_value_lb i = carbon_value_lb j /\
  op_cost_site_month i = op_cost_site_month j /\
  capex_per_site i = capex_per_site j /\
  trainees_per_site_year i = trainees_per_site_year j.

(** [i] with another placement rate. *)
Definition with_placement_rate (p : Q) (i : Inputs) : Inputs := {|
  sites := sites i;
  lbs_per_site_month := lbs_per_site_month i;
  recovery_rate := recovery_rate i;
  yield_rate := yield_rate i;
  downtime_rate := downtime_rate i;
  scrap_rate := scrap_rate i;
  sell_share := sell_share i;
  sell_price_lb := sell_price_lb i;
  internal_value_lb := internal_value_lb i;
  disposal_avoid_lb := disposal_avoid_lb i;
  carbon_value_lb := carbon_value_lb i;
  op_cost_site_month := op_cost_site_month i;
  capex_per_site := capex_per_site i;
  trainees_per_site_year := trainees_per_site_year i;
  placement_rate := p;
  avg_wage_uplift := avg_wage_uplift i
|}.

(** [i] with other values for the five clamped rates. *)
Definition with_rates (r y d s sh : Q) (i : Inputs) : Inputs := {|
  sites := sites i;
  lbs_per_site_month := lbs_per_site_month i;
  recovery_rate := r;
  yield_rate := y;
  downtime_rate := d;
  scrap_rate := s;
  sell_share := sh;
  sell_price_lb := sell_price_lb i;
  internal_value_lb := internal_value_lb i;
  disposal_avoid_lb := disposal_avoid_lb i;
  carbon_value_lb := carbon_value_lb i;
  op_cost_site_month := op_cost_site_month i;
  capex_per_site := capex_per_site i;
  trainees_per_site_year := trainees_per_site_year i;
  placement_rate := placement_rate i;
  avg_wage_uplift := avg_wage_uplift i
|}.

(** ** The loop invariant

    What holds of the loop variables and of [rows] once the iteration of
    year [y] is over ([y = 0]: before the first iteration): the variables
    are the spec's state of year [y], and row [k] is the row of year
    [k + 1] computed from the spec's state of that year. *)
Definition loop_inv (i : Inputs) (g : ProFormaInputs) (v : Q) (y : nat)
  (st : Running * list Row) : Prop :=
  fst st = spec_state i g v y /\
  length (snd st) = y /\
  forall k, (k < y)%nat ->
    exists r, nth_error (snd st) k = Some r /\
      ProForma.row_of i g (Datatypes.S k) (spec_state i g v (Datatypes.S k))
      = Ok r.

(** Pro forma inputs with another site growth and number of years. *)
Definition with_site_growth (n : nat) (gs : Q) (g : ProFormaInputs)
  : ProFormaInputs := {|
  years := n;
  growth_sites := gs;
  growth_lbs := growth_lbs g;
  growth_price := growth_price g;
  growth_cost := growth_cost g;
  reinvest_rate := reinvest_rate g
|}.

(** ** Access and views (script lines 113-127, 215, 239 and 299) *)

(** The options of the "View Mode" radio and of the "Role" select box, with
    the strings the widgets return. *)
Inductive view_mode : Type :=
| Public_Impact_Portal
| Organization_Login.

Definition mode_label (m : view_mode) : String.string :=
  match m with
  | Public_Impact_Portal => "Public Impact Portal"
  | Organization_Login => "Organization Login"
  end.

Inductive role_option : Type :=
| Admin
| Industrial_Partner
| Corporate_Sponsor
| Workforce_Team.

Definition role_label (r : role_option) : String.string :=
  match r with
  | Admin => "Admin"
  | Industrial_Partner => "Industrial Partner"
  | Corporate_Sponsor => "Corporate Sponsor"
  | Workforce_Team => "Workforce Team"
  end.

(** The variable [role] after the sign-in block; [None] is [st.stop()]. *)
Definition sign_in (mode : view_mode) (pin : String.string)
  (choice : role_option) : option String.string :=
  if String.eqb (mode_label mode) "Organization Login" then
    if negb (String.eqb pin "1234") then None
    else Some (role_label choice)
  else Some "PUBLIC"%string.

(** What the script then draws: the public portal, or the dashboard, whose
    finance tab holds the pro forma or only a notice. *)
Inductive page : Type :=
| Public_portal
| Dashboard (pro_forma_shown : bool).

Definition render (role : String.string) : page :=
  if String.eqb role "PUBLIC" then Public_portal
  else Dashboard (negb (negb (String.eqb role "Admin"))).

Definition app (mode : view_mode) (pin : String.string)
  (choice : role_option) : option page :=
  option_map render (sign_in mode pin choice).

(** ** An order on the lights: red below yellow below green. *)
Definition light_rank (l : light) : nat :=
  match l with
  | Red => 0
  | Yellow => 1
  | Green => 2
  end.

(** [i] with other workforce assumptions (script lines 156-158). *)
Definition with_workforce (t p w : Q) (i : Inputs) : Inputs := {|
  sites := sites i;
  lbs_per_site_month := lbs_per_site_month i;
  recovery_rate := recovery_rate i;
  yield_rate := yield_rate i;
  downtime_rate := downtime_rate i;
  scrap_rate := scrap_rate i;
  sell_share := sell_share i;
  sell_price_lb := sell_price_lb i;
  internal_value_lb := internal_value_lb i;
  disposal_avoid_lb := disposal_avoid_lb i;
  carbon_value_lb := carbon_value_lb i;
  op_cost_site_month := op_cost_site_month i;
  capex_per_site := capex_per_site i;
  trainees_per_site_year := t;
  placement_rate := p;
  avg_wage_uplift := w
|}.

(** ** The light and the payback in binary64 (script lines 42-47, 163-186)

    The same statements on IEEE 754 binary64 numbers, operation for
    operation: [*], [-], [+] and [/] round to nearest, [<=] and [>=] are
    false on a NaN, [float("inf")] is [infinity], and [/] raises on a zero
    divisor of either sign.  [clamp] is the one of [Binary64]. *)
Module B64.
Import PrimFloat.
#[local] Open Scope float_scope.
#[local] Set Warnings "-inexact-float".

Definition py_div (x y : float) : result float :=
  if eqb y 0 then Raise ZeroDivisionError else Ok (x / y).

Definition traffic_light (value target warn_band : float) : light :=
  if leb target value then Green
  else if leb (target - warn_band) value then Yellow
  else Red.

Record Inputs : Type := {
  sites : float;
  lbs_per_site_month : float;
  recovery_rate : float;
  yield_rate : float;
  downtime_rate : float;
  scrap_rate : float;
  sell_share : float;
  sell_price_lb : float;
  internal_value_lb : float;
  disposal_avoid_lb : float;
  carbon_value_lb : float;
  op_cost_site_month : float;
  capex_per_site : float
}.

Section Monthly.

Variable i : Inputs.

Definition W : float := lbs_per_site_month i * sites i.
Definition R : float := Binary64.clamp (recovery_rate i) 0 1.
Definition Y : float := Binary64.clamp (yield_rate i) 0 1.
Definition D : float := Binary64.clamp (downtime_rate i) 0 1.
Definition S : float := Binary64.clamp (scrap_rate i) 0 1.

Definition recovered : float := W * R.
Definition usable : float := recovered * (1 - S).
Definition finished : float := usable * Y * (1 - D).

Definition sold_lbs : float := finished * Binary64.clamp (sell_share i) 0 1.
Definition internal_lbs : float :=
  finished * (1 - Binary64.clamp (sell_share i) 0 1).

Definition sell_rev : float := sold_lbs * sell_price_lb i.
Definition internal_val : float := internal_lbs * internal_value_lb i.
Definition disp_avoid : float := recovered * disposal_avoid_lb i.
Definition carbon_val : float := recovered * carbon_value_lb i.

Definition gross_value : float :=
  sell_rev + internal_val + disp_avoid + carbon_val.
Definition op_cost : float := op_cost_site_month i * sites i.
Definition net_profit : float := gross_value - op_cost.

Definition capex_total : float := capex_per_site i * sites i.

(** [float("inf") if net_profit <= 0 else capex_total / net_profit] *)
Definition payback_mo : result float :=
  if leb net_profit 0 then Ok infinity
  else py_div capex_total net_profit.

End Monthly.

(** The widgets' starting values with other sites, pounds per site and
    operating cost per site. *)
Definition defaults_with (n lbs op_cost_site : float) : Inputs := {|
  sites := n;
  lbs_per_site_month := lbs;
  recovery_rate := 0.90;
  yield_rate := 0.92;
  downtime_rate := 0.08;
  scrap_rate := 0.06;
  sell_share := 0.50;
  sell_price_lb := 10;
  internal_value_lb := 12;
  disposal_avoid_lb := 0.15;
  carbon_value_lb := 0.06;
  op_cost_site_month := op_cost_site;
  capex_per_site := 120000
|}.

End B64.

(** [i] with another capital expenditure per site. *)
Definition with_capex (c : Q) (i : Inputs) : Inputs := {|
  sites := sites i;
  lbs_per_site_month := lbs_per_site_month i;
  recovery_rate := recovery_rate i;
  yield_rate := yield_rate i;
  downtime_rate := downtime_rate i;
  scrap_rate := scrap_rate i;
  sell_share := sell_share i;
  sell_price_lb := sell_price_lb i;
  internal_value_lb := internal_value_lb i;
  disposal_avoid_lb := disposal_avoid_lb i;
  carbon_value_lb := carbon_value_lb i;
  op_cost_site_month := op_cost_site_month i;
  capex_per_site := c;
  trainees_per_site_year := trainees_per_site_year i;
  placement_rate := placement_rate i;
  avg_wage_uplift := avg_wage_uplift i
|}.

(** * Properties *)

(** ** Arithmetic of the helpers *)

(** Closed comparisons of rationals, by evaluation. *)
Ltac q_eval :=
  repeat apply conj;
  vm_compute; first [reflexivity | discriminate].

(** The four cases of [clamp x 0 1]: which argument [max] returns, then
    which one [min] returns. *)
Ltac clamp_cases x :=
  unfold clamp;
  destruct (Q.max_spec x 0) as [[? ?] | [? ?]];
  destruct (Q.min_spec (Qmax x 0) 1) as [[? ?] | [? ?]].

Lemma clamp_unit (x : Q) : 0 <= clamp x 0 1 <= 1.
Proof. clamp_cases x; split; lra. Qed.

Lemma clamp_inside (x : Q) : 0 <= x <= 1 -> clamp x 0 1 == x.
Proof. intros [H0 H1]. clamp_cases x; lra. Qed.

Lemma clamp_below (x : Q) : x <= 0 -> clamp x 0 1 == 0.
Proof. intros H0. clamp_cases x; lra. Qed.

Lemma clamp_above (x : Q) : 1 <= x -> clamp x 0 1 == 1.
Proof. intros H1. clamp_cases x; lra. Qed.

Lemma Qle_bool_false (x y : Q) : Qle_bool x y = false <-> y < x.
Proof.
  split; intros H.
  - apply Qnot_le_lt. intros Hle.
    apply Qle_bool_iff in Hle. congruence.
  - destruct (Qle_bool x y) eqn:E; [|reflexivity].
    apply Qle_bool_iff in E. lra.
Qed.

Lemma py_div_nonzero (x y : Q) : ~ y == 0 -> py_div x y = Ok (x / y).
Proof.
  intros H. unfold py_div.
  destruct (Qeq_bool y 0) eqn:E; [|reflexivity].
  apply Qeq_bool_iff in E. contradiction.
Qed.

Lemma py_div_zero (x y : Q) : y == 0 -> py_div x y = Raise ZeroDivisionError.
Proof.
  intros H. unfold py_div.
  apply Qeq_bool_iff in H. now rewrite H.
Qed.

(** ** Monthly model *)

Lemma W_nonneg (i : Inputs) :
  0 <= lbs_per_site_month i -> 0 <= sites i -> 0 <= Core.W i.
Proof. intros Hl Hs. unfold Core.W. nra. Qed.

(** The chain needs no assumption on the rates: the clamps give it. *)
Lemma flow_chain_clamped (i : Inputs) :
  0 <= Core.W i ->
  0 <= Core.finished i /\
  Core.finished i <= Core.usable i /\
  Core.usable i <= Core.recovered i /\
  Core.recovered i <= Core.W i.
Proof.
  intros HW.
  unfold Core.finished, Core.usable, Core.recovered.
  pose proof (clamp_unit (recovery_rate i)) as [HR0 HR1].
  pose proof (clamp_unit (yield_rate i)) as [HY0 HY1].
  pose proof (clamp_unit (downtime_rate i)) as [HD0 HD1].
  pose proof (clamp_unit (scrap_rate i)) as [HS0 HS1].
  fold (Core.R i) in *. fold (Core.Y i) in *.
  fold (Core.D i) in *. fold (Core.S i) in *.
  generalize dependent (Core.R i). generalize dependent (Core.Y i).
  generalize dependent (Core.D i). generalize dependent (Core.S i).
  generalize dependent (Core.W i).
  intros w Hw s Hs0 Hs1 d Hd0 Hd1 y Hy0 Hy1 r Hr0 Hr1.
  assert (Hrec : 0 <= w * r <= w) by (split; nra).
  assert (Hus : 0 <= w * r * (1 - s) <= w * r) by (split; nra).
  assert (Hy : 0 <= w * r * (1 - s) * y <= w * r * (1 - s)) by (split; nra).
  assert (Hfin : 0 <= w * r * (1 - s) * y * (1 - d) <= w * r * (1 - s) * y)
    by (split; nra).
  repeat split; lra.
Qed.

(** C1: when the four process rates lie in [0,1] and the intake per site and
    the number of sites are not negative, the monthly flow satisfies
    0 <= finished <= usable <= recovered <= incoming. *)
Theorem flow_chain (i : Inputs) :
  0 <= recovery_rate i <= 1 ->
  0 <= yield_rate i <= 1 ->
  0 <= downtime_rate i <= 1 ->
  0 <= scrap_rate i <= 1 ->
  0 <= lbs_per_site_month i ->
  0 <= sites i ->
  0 <= Core.finished i /\
  Core.finished i <= Core.usable i /\
  Core.usable i <= Core.recovered i /\
  Core.recovered i <= Core.W i.
Proof.
  intros _ _ _ _ Hl Hs.
  apply flow_chain_clamped, W_nonneg; assumption.
Qed.

Lemma flow_chain_witness :
  0 <= Core.finished default_inputs /\
  Core.finished default_inputs <= Core.usable default_inputs /\
  Core.usable default_inputs <= Core.recovered default_inputs /\
  Core.recovered default_inputs <= Core.W default_inputs.
Proof. apply (flow_chain default_inputs); q_eval. Defined.

(** The payback never raises: the division is reached only with a positive
    divisor. *)
Lemma payback_cases (i : Inputs) :
  (Core.net_profit i <= 0 /\ Core.payback_mo i = Ok PosInf) \/
  (0 < Core.net_profit i /\
   Core.payback_mo i = Ok (Fin (Core.capex_total i / Core.net_profit i))).
Proof.
  unfold Core.payback_mo.
  destruct (Qle_bool (Core.net_profit i) 0) eqn:E.
  - left. apply Qle_bool_iff in E. split; [assumption | reflexivity].
  - right. apply Qle_bool_false in E. split; [assumption |].
    rewrite py_div_nonzero by lra. reflexivity.
Qed.

(** A finite payback is positive whenever the capital expenditure is. *)
Lemma payback_finite_positive (i : Inputs) (q : Q) :
  Core.payback_mo i = Ok (Fin q) -> 0 < Core.capex_total i -> 0 < q.
Proof.
  intros Hp Hc.
  destruct (payback_cases i) as [[Hn Hp'] | [Hn Hp']];
    rewrite Hp' in Hp; inversion Hp; subst.
  apply Qlt_shift_div_l; lra.
Qed.

(** [finished] multiplies in the order usable, yield, one minus downtime. *)
Lemma finished_order (i : Inputs) :
  Core.finished i = Core.usable i * Core.Y i * (1 - Core.D i).
Proof. reflexivity. Qed.

(** C3 (as amended): with the default inputs recovered is 72000, usable is
    67680 and finished, usable x yield x (1 - downtime) in this order, is
    67680 x 0.92 x 0.92 = 57284.352. *)
Theorem default_flow :
  Core.recovered default_inputs == 72000 /\
  Core.usable default_inputs == 67680 /\
  Core.finished default_inputs ==
    Core.usable default_inputs * Core.Y default_inputs
      * (1 - Core.D default_inputs) /\
  Core.finished default_inputs == 67680 * 0.92 * 0.92 /\
  Core.finished default_inputs == 57284.352.
Proof. q_eval. Qed.

(** C3 as stated fails: finished is not a number that starts 57288.58. *)
Lemma default_finished_not_57288 :
  ~ (Core.recovered default_inputs == 72000 /\
     Core.usable default_inputs == 67680 /\
     57288.58 <= Core.finished default_inputs < 57288.59).
Proof.
  intros (_ & _ & Hlo & _).
  revert Hlo. unfold Qle. simpl. lia.
Qed.

(** The same example with the rounding of binary64: recovered and usable
    are exactly 72000 and 67680, and finished is the float that prints as
    57284.352000000006, between 57284.25 and 57284.5. *)
Example default_flow_binary64 :
  Binary64.recovered Binary64.default_inputs = 72000%float /\
  Binary64.usable Binary64.default_inputs = 67680%float /\
  Binary64.finished Binary64.default_inputs = 0x1.bf88b43958107p+15%float /\
  PrimFloat.ltb 57284.25%float (Binary64.finished Binary64.default_inputs)
  = true /\
  PrimFloat.ltb (Binary64.finished Binary64.default_inputs) 57284.5%float
  = true.
Proof. repeat split; vm_compute; reflexivity. Qed.

(** The rest of the monthly model at the default inputs. *)
Example default_financials :
  Core.sell_rev default_inputs == 286421.76 /\
  Core.internal_val default_inputs == 343706.112 /\
  Core.gross_value default_inputs == 645247.872 /\
  Core.net_profit default_inputs == 627247.872 /\
  (exists q, Core.payback_mo default_inputs = Ok (Fin q) /\
             q == 120000 / 627247.872) /\
  Core.placed_total_year default_inputs == 56.
Proof.
  split; [q_eval|]. split; [q_eval|]. split; [q_eval|]. split; [q_eval|].
  split; [|q_eval].
  eexists. split; [vm_compute; reflexivity | q_eval].
Qed.

(** An operating cost above the gross value gives the sentinel. *)
Example payback_infinite :
  Core.payback_mo
    {| sites := 1; lbs_per_site_month := 100; recovery_rate := 0.9;
       yield_rate := 0.92; downtime_rate := 0.08; scrap_rate := 0.06;
       sell_share := 0.5; sell_price_lb := 10; internal_value_lb := 12;
       disposal_avoid_lb := 0.15; carbon_value_lb := 0.06;
       op_cost_site_month := 18000; capex_per_site := 120000;
       trainees_per_site_year := 80; placement_rate := 0.7;
       avg_wage_uplift := 8 |}
  = Ok PosInf.
Proof. reflexivity. Qed.

(** ** The derived value per recovered pound *)

Lemma value_per_recovered_lb_cases (i : Inputs) :
  (Core.recovered i <= 0 /\ ProForma.value_per_recovered_lb i = Ok 0) \/
  (0 < Core.recovered i /\
   ProForma.value_per_recovered_lb i
   = Ok (Core.gross_value i / Core.recovered i)).
Proof.
  unfold ProForma.value_per_recovered_lb.
  destruct (Qle_bool (Core.recovered i) 0) eqn:E.
  - left. apply Qle_bool_iff in E. split; [assumption | reflexivity].
  - right. apply Qle_bool_false in E. split; [assumption |].
    apply py_div_nonzero. lra.
Qed.

(** C7: the value per recovered pound is gross_value / recovered when
    recovered is positive, and 0, without raising, when recovered is zero or
    negative. *)
Theorem value_per_recovered_lb_guarded (i : Inputs) :
  (0 < Core.recovered i ->
   ProForma.value_per_recovered_lb i
   = Ok (Core.gross_value i / Core.recovered i)) /\
  (Core.recovered i <= 0 -> ProForma.value_per_recovered_lb i = Ok 0) /\
  (exists v, ProForma.value_per_recovered_lb i = Ok v).
Proof.
  destruct (value_per_recovered_lb_cases i) as [[Hr Hv] | [Hr Hv]];
    rewrite Hv; repeat split; intros;
    try reflexivity; try (exfalso; lra); eexists; reflexivity.
Qed.

(** ** Traffic lights *)

Lemma traffic_light_band (value target warn_band : Q) :
  (target <= value -> traffic_light value target warn_band = Green) /\
  (value < target -> target - warn_band <= value ->
   traffic_light value target warn_band = Yellow) /\
  (value < target -> value < target - warn_band ->
   traffic_light value target warn_band = Red).
Proof.
  unfold traffic_light.
  destruct (Qle_bool target value) eqn:Eg;
    [apply Qle_bool_iff in Eg | apply Qle_bool_false in Eg];
    (destruct (Qle_bool (target - warn_band) value) eqn:Ey;
     [apply Qle_bool_iff in Ey | apply Qle_bool_false in Ey]);
    repeat split; intros; try reflexivity; lra.
Qed.

(** The recovery light of the script, in exact arithmetic. *)
Lemma recovery_light_thresholds (i : Inputs) :
  (0.90 <= Core.R i -> recovery_light i = Green) /\
  (0.85 <= Core.R i < 0.90 -> recovery_light i = Yellow) /\
  (Core.R i < 0.85 -> recovery_light i = Red).
Proof.
  destruct (traffic_light_band (Core.R i) target_recovery 0.05)
    as (Hg & Hy & Hr).
  unfold recovery_light, target_recovery in *.
  repeat split; intros; [apply Hg | apply Hy | apply Hr]; lra.
Qed.

(** The keyword default 0.03, which no call uses, gives a narrower yellow
    band. *)
Example traffic_light_default_band :
  traffic_light 0.86 0.90 default_warn_band = Red /\
  traffic_light 0.86 0.90 0.05 = Yellow.
Proof. split; reflexivity. Qed.

(** ** Which rates are clamped *)

Lemma clamped_rates_unit (i : Inputs) :
  0 <= Core.R i <= 1 /\ 0 <= Core.Y i <= 1 /\
  0 <= Core.D i <= 1 /\ 0 <= Core.S i <= 1 /\
  0 <= clamp (sell_share i) 0 1 <= 1.
Proof. repeat apply conj; apply clamp_unit. Qed.

Section SameClamped.

Variables i j : Inputs.
Hypothesis Hsame : same_clamped i j.

Let Hsites : sites i = sites j.
Proof. apply Hsame. Qed.
Let Hlbs : lbs_per_site_month i = lbs_per_site_month j.
Proof. apply Hsame. Qed.
Let Hopc : op_cost_site_month i = op_cost_site_month j.
Proof. apply Hsame. Qed.
Let Hcapex : capex_per_site i = capex_per_site j.
Proof. apply Hsame. Qed.

Lemma same_W : Core.W i = Core.W j.
Proof. unfold Core.W. now rewrite Hsites, Hlbs. Qed.

Lemma same_R : Core.R i = Core.R j.
Proof. apply Hsame. Qed.

Lemma same_recovered : Core.recovered i = Core.recovered j.
Proof. unfold Core.recovered. now rewrite same_W, same_R. Qed.

Lemma same_usable : Core.usable i = Core.usable j.
Proof.
  unfold Core.usable, Core.S. rewrite same_recovered.
  destruct Hsame as (_ & _ & _ & _ & _ & Hs & _). now rewrite Hs.
Qed.

Lemma same_finished : Core.finished i = Core.finished j.
Proof.
  unfold Core.finished, Core.Y, Core.D. rewrite same_usable.
  destruct Hsame as (_ & _ & _ & Hy & Hd & _). now rewrite Hy, Hd.
Qed.

Lemma same_sold_lbs : Core.sold_lbs i = Core.sold_lbs j.
Proof.
  unfold Core.sold_lbs. rewrite same_finished.
  destruct Hsame as (_ & _ & _ & _ & _ & _ & Hsh & _). now rewrite Hsh.
Qed.

Lemma same_internal_lbs : Core.internal_lbs i = Core.internal_lbs j.
Proof.
  unfold Core.internal_lbs. rewrite same_finished.
  destruct Hsame as (_ & _ & _ & _ & _ & _ & Hsh & _). now rewrite Hsh.
Qed.

Lemma same_sell_rev : Core.sell_rev i = Core.sell_rev j.
Proof.
  unfold Core.sell_rev. rewrite same_sold_lbs.
  destruct Hsame as (_ & _ & _ & _ & _ & _ & _ & Hp & _). now rewrite Hp.
Qed.

Lemma same_internal_val : Core.internal_val i = Core.internal_val j.
Proof.
  unfold Core.internal_val. rewrite same_internal_lbs.
  destruct Hsame as (_ & _ & _ & _ & _ & _ & _ & _ & Hv & _). now rewrite Hv.
Qed.

Lemma same_disp_avoid : Core.disp_avoid i = Core.disp_avoid j.
Proof.
  unfold Core.disp_avoid. rewrite same_recovered.
  destruct Hsame as (_ & _ & _ & _ & _ & _ & _ & _ & _ & Hd & _).
  now rewrite Hd.
Qed.

Lemma same_carbon_val : Core.carbon_val i = Core.carbon_val j.
Proof.
  unfold Core.carbon_val. rewrite same_recovered.
  destruct Hsame as (_ & _ & _ & _ & _ & _ & _ & _ & _ & _ & Hc & _).
  now rewrite Hc.
Qed.

Lemma same_gross_value : Core.gross_value i = Core.gross_value j.
Proof.
  unfold Core.gross_value.
  now rewrite same_sell_rev, same_internal_val, same_disp_avoid,
    same_carbon_val.
Qed.

Lemma same_op_cost : Core.op_cost i = Core.op_cost j.
Proof. unfold Core.op_cost. now rewrite Hsites, Hopc. Qed.

Lemma same_net_profit : Core.net_profit i = Core.net_profit j.
Proof. unfold Core.net_profit. now rewrite same_gross_value, same_op_cost. Qed.

Lemma same_capex_total : Core.capex_total i = Core.capex_total j.
Proof. unfold Core.capex_total. now rewrite Hsites, Hcapex. Qed.

Lemma same_payback_mo : Core.payback_mo i = Core.payback_mo j.
Proof.
  unfold Core.payback_mo. now rewrite same_net_profit, same_capex_total.
Qed.

Lemma same_trainees : Core.trainees_total_year i = Core.trainees_total_year j.
Proof.
  unfold Core.trainees_total_year. rewrite Hsites.
  destruct Hsame as (_ & _ & _ & _ & _ & _ & _ & _ & _ & _ & _ & _ & _ & Ht).
  now rewrite Ht.
Qed.

Variable g : ProFormaInputs.

Lemma same_value_per_recovered_lb :
  ProForma.value_per_recovered_lb i = ProForma.value_per_recovered_lb j.
Proof.
  unfold ProForma.value_per_recovered_lb.
  now rewrite same_recovered, same_gross_value.
Qed.

Lemma same_initial (v : Q) : ProForma.initial i v = ProForma.initial j v.
Proof.
  unfold ProForma.initial, ProForma.op_cost_per_site.
  now rewrite Hsites, Hlbs, Hopc.
Qed.

Lemma same_row_of (y : nat) (s : Running) :
  ProForma.row_of i g y s = ProForma.row_of j g y s.
Proof.
  unfold ProForma.row_of, ProForma.capex_of, ProForma.capex_per_site_local.
  now rewrite same_R, Hcapex.
Qed.

Lemma same_for_years (ys : list nat) (st : Running * list Row) :
  ProForma.for_years i g ys st = ProForma.for_years j g ys st.
Proof.
  revert st. induction ys as [|y ys IH]; intros st; [reflexivity|].
  simpl. unfold ProForma.loop_body. rewrite same_row_of.
  destruct (ProForma.row_of j g y _); simpl; [apply IH | reflexivity].
Qed.

Lemma same_pf : ProForma.pf i g = ProForma.pf j g.
Proof.
  unfold ProForma.pf, ProForma.loop.
  rewrite same_value_per_recovered_lb.
  destruct (ProForma.value_per_recovered_lb j) as [v|e]; [|reflexivity].
  simpl. now rewrite same_initial, same_for_years.
Qed.

End SameClamped.

(** C4 (as amended): recovery, yield, downtime, scrap and sell share are
    clamped into [0,1] before use, and every monthly output and the whole
    pro forma depend on them only through the clamped values: two inputs
    that agree after clamping give the same results.  The placement rate is
    multiplied in as supplied. *)
Theorem five_rates_clamped (i j : Inputs) (g : ProFormaInputs) :
  same_clamped i j ->
  (0 <= Core.R i <= 1 /\ 0 <= Core.Y i <= 1 /\
   0 <= Core.D i <= 1 /\ 0 <= Core.S i <= 1 /\
   0 <= clamp (sell_share i) 0 1 <= 1) /\
  Core.W i = Core.W j /\
  Core.recovered i = Core.recovered j /\
  Core.usable i = Core.usable j /\
  Core.finished i = Core.finished j /\
  Core.sold_lbs i = Core.sold_lbs j /\
  Core.internal_lbs i = Core.internal_lbs j /\
  Core.sell_rev i = Core.sell_rev j /\
  Core.internal_val i = Core.internal_val j /\
  Core.disp_avoid i = Core.disp_avoid j /\
  Core.carbon_val i = Core.carbon_val j /\
  Core.gross_value i = Core.gross_value j /\
  Core.op_cost i = Core.op_cost j /\
  Core.net_profit i = Core.net_profit j /\
  Core.capex_total i = Core.capex_total j /\
  Core.payback_mo i = Core.payback_mo j /\
  Core.trainees_total_year i = Core.trainees_total_year j /\
  ProForma.pf i g = ProForma.pf j g /\
  Core.placed_total_year i = Core.trainees_total_year i * placement_rate i.
Proof.
  intros H.
  split; [apply clamped_rates_unit|].
  repeat apply conj;
    auto using same_W, same_recovered, same_usable, same_finished,
      same_sold_lbs, same_internal_lbs, same_sell_rev, same_internal_val,
      same_disp_avoid, same_carbon_val, same_gross_value, same_op_cost,
      same_net_profit, same_capex_total, same_payback_mo, same_trainees,
      same_pf.
Qed.

Lemma five_rates_clamped_witness :
  let i := with_rates 1.5 (-2) 0.08 7 3 default_inputs in
  let j := with_rates 1 0 0.08 1 1 default_inputs in
  same_clamped i j /\
  Core.finished i = Core.finished j /\
  Core.payback_mo i = Core.payback_mo j /\
  ProForma.pf i default_pro_forma = ProForma.pf j default_pro_forma.
Proof.
  intros i j.
  assert (H : same_clamped i j) by (repeat apply conj; reflexivity).
  destruct (five_rates_clamped i j default_pro_forma H)
    as (_ & _ & _ & _ & Hfin & _ & _ & _ & _ & _ & _ & _ & _ & _ & _
        & Hpay & _ & Hpf & _).
  exact (conj H (conj Hfin (conj Hpay Hpf))).
Defined.

(** C4 as stated fails for the placement rate: 1.5 and 1 are the same after
    clamping, and the jobs placed differ, 120 against 80. *)
Lemma placement_rate_not_clamped :
  let i := with_placement_rate 1.5 default_inputs in
  let j := with_placement_rate 1 default_inputs in
  same_clamped i j /\
  clamp (placement_rate i) 0 1 = clamp (placement_rate j) 0 1 /\
  Core.placed_total_year i == 120 /\
  Core.placed_total_year j == 80 /\
  ~ Core.placed_total_year i ==
      Core.trainees_total_year i * clamp (placement_rate i) 0 1.
Proof.
  cbv zeta. repeat apply conj; try reflexivity.
  unfold Qeq. simpl. lia.
Qed.

(** ** The pro forma loop *)

Section Loop.

Variable i : Inputs.
Variable g : ProFormaInputs.

Lemma capex_of_first (s : Running) :
  ProForma.capex_of i g 1 s = Ok (Qmax (sites_y s * capex_per_site i) 0).
Proof. reflexivity. Qed.

Lemma capex_of_later (y : nat) (s : Running) :
  y <> 1%nat -> ~ 1 + growth_sites g == 0 ->
  ProForma.capex_of i g y s
  = Ok (Qmax ((sites_y s - sites_y s / (1 + growth_sites g))
              * capex_per_site i) 0).
Proof.
  intros Hy Hg. unfold ProForma.capex_of.
  apply Nat.eqb_neq in Hy. rewrite Hy.
  rewrite py_div_nonzero by assumption. reflexivity.
Qed.

Lemma capex_of_raises (y : nat) (s : Running) :
  y <> 1%nat -> 1 + growth_sites g == 0 ->
  ProForma.capex_of i g y s = Raise ZeroDivisionError.
Proof.
  intros Hy Hg. unfold ProForma.capex_of.
  apply Nat.eqb_neq in Hy. rewrite Hy.
  rewrite py_div_zero by assumption. reflexivity.
Qed.

(** The fields of a row that was built. *)
Lemma row_of_fields (y : nat) (s : Running) (r : Row) :
  ProForma.row_of i g y s = Ok r ->
  Year r = y /\
  Sites r = sites_y s /\
  Annual_incoming_lbs r = sites_y s * lbs_site_y s * 12 /\
  Annual_recovered_lbs r = Annual_incoming_lbs r * Core.R i /\
  Gross_value r = Annual_recovered_lbs r * vpr s /\
  Operating_cost r = sites_y s * op_cost_site_y s /\
  Net_proceeds r = Gross_value r - Operating_cost r /\
  ProForma.capex_of i g y s = Ok (CapEx_new_sites r) /\
  Workforce_reinvest r = Qmax (Net_proceeds r) 0 * reinvest_rate g.
Proof.
  unfold ProForma.row_of.
  destruct (ProForma.capex_of i g y s) as [c|e]; simpl; [|discriminate].
  intros H. inversion H; subst; clear H. simpl.
  repeat split; reflexivity.
Qed.

Lemma row_of_ok (y : nat) (s : Running) (c : Q) :
  ProForma.capex_of i g y s = Ok c ->
  exists r, ProForma.row_of i g y s = Ok r.
Proof.
  intros H. unfold ProForma.row_of. rewrite H. simpl.
  eexists; reflexivity.
Qed.

Lemma row_of_raises (y : nat) (s : Running) (e : exn) :
  ProForma.capex_of i g y s = Raise e ->
  ProForma.row_of i g y s = Raise e.
Proof.
  intros H. unfold ProForma.row_of. now rewrite H.
Qed.

Variable v : Q.

Lemma spec_state_first : spec_state i g v 1 = ProForma.initial i v.
Proof. reflexivity. Qed.

Lemma spec_state_next (y : nat) :
  spec_state i g v (Datatypes.S (Datatypes.S y))
  = ProForma.grow g (spec_state i g v (Datatypes.S y)).
Proof. reflexivity. Qed.

Lemma loop_inv_start : loop_inv i g v 0 (ProForma.initial i v, []).
Proof.
  repeat split. intros k Hk. inversion Hk.
Qed.

Lemma loop_body_state (y : nat) (st : Running * list Row) :
  fst st = spec_state i g v y ->
  (if (1 <? Datatypes.S y)%nat then ProForma.grow g (fst st) else fst st)
  = spec_state i g v (Datatypes.S y).
Proof.
  intros Hs. destruct y as [|y].
  - simpl. rewrite Hs. reflexivity.
  - replace (1 <? Datatypes.S (Datatypes.S y))%nat with true
      by (symmetry; apply Nat.ltb_lt; lia).
    rewrite Hs. reflexivity.
Qed.

Lemma loop_body_inv (y : nat) (st st' : Running * list Row) :
  loop_inv i g v y st ->
  ProForma.loop_body i g (Datatypes.S y) st = Ok st' ->
  loop_inv i g v (Datatypes.S y) st'.
Proof.
  intros (Hs & Hlen & Hrows) Hbody.
  unfold ProForma.loop_body in Hbody.
  rewrite (loop_body_state y st Hs) in Hbody.
  destruct (ProForma.row_of i g (Datatypes.S y) _) as [r|e] eqn:Er;
    simpl in Hbody; [|discriminate].
  inversion Hbody; subst st'; clear Hbody.
  unfold loop_inv. simpl. split; [reflexivity | split].
  - rewrite length_app. simpl. lia.
  - intros k Hk.
    destruct (Nat.eq_dec k y) as [->|Hne].
    + exists r. split; [|exact Er].
      rewrite nth_error_app2 by lia.
      rewrite Hlen, Nat.sub_diag. reflexivity.
    + destruct (Hrows k) as (r' & Hn & Hr'); [lia|].
      exists r'. split; [|exact Hr'].
      rewrite nth_error_app1 by lia. exact Hn.
Qed.

Lemma for_years_inv (n y : nat) (st st' : Running * list Row) :
  loop_inv i g v y st ->
  ProForma.for_years i g (seq (Datatypes.S y) n) st = Ok st' ->
  loop_inv i g v (y + n) st'.
Proof.
  revert y st. induction n as [|n IH]; intros y st Hinv Hrun.
  - simpl in Hrun. inversion Hrun; subst. now rewrite Nat.add_0_r.
  - simpl in Hrun.
    destruct (ProForma.loop_body i g (Datatypes.S y) st) as [st1|e] eqn:Eb;
      simpl in Hrun; [|discriminate].
    replace (y + Datatypes.S n)%nat with (Datatypes.S y + n)%nat by lia.
    apply (IH (Datatypes.S y) st1); [|exact Hrun].
    eapply loop_body_inv; eassumption.
Qed.

(** With a divisor that is not zero no iteration raises. *)
Lemma for_years_total (ys : list nat) (st : Running * list Row) :
  ~ 1 + growth_sites g == 0 ->
  exists st', ProForma.for_years i g ys st = Ok st'.
Proof.
  intros Hg. revert st. induction ys as [|y ys IH]; intros st.
  - eexists; reflexivity.
  - simpl. unfold ProForma.loop_body.
    set (s := if (1 <? y)%nat then _ else _).
    assert (Hc : exists c, ProForma.capex_of i g y s = Ok c).
    { destruct (Nat.eq_dec y 1) as [->|Hy].
      - eexists; apply capex_of_first.
      - eexists; apply capex_of_later; assumption. }
    destruct Hc as (c & Hc).
    destruct (row_of_ok y s c Hc) as (r & Hr).
    rewrite Hr. simpl. apply IH.
Qed.

Lemma loop_body_first (st : Running * list Row) :
  exists r, ProForma.loop_body i g 1 st = Ok (fst st, snd st ++ [r]).
Proof.
  unfold ProForma.loop_body.
  change (1 <? 1)%nat with false. cbv iota.
  destruct (row_of_ok 1 (fst st) _ (capex_of_first (fst st))) as (r & Hr).
  exists r. rewrite Hr. reflexivity.
Qed.

Lemma loop_body_raises (y : nat) (st : Running * list Row) :
  y <> 1%nat -> 1 + growth_sites g == 0 ->
  ProForma.loop_body i g y st = Raise ZeroDivisionError.
Proof.
  intros Hy Hg. unfold ProForma.loop_body.
  rewrite (row_of_raises y _ ZeroDivisionError); [reflexivity|].
  apply capex_of_raises; assumption.
Qed.

(** With the divisor zero the second iteration raises. *)
Lemma for_years_raises (n : nat) (st : Running * list Row) :
  1 + growth_sites g == 0 ->
  ProForma.for_years i g (seq 1 (Datatypes.S (Datatypes.S n))) st
  = Raise ZeroDivisionError.
Proof.
  intros Hg.
  change (seq 1 (Datatypes.S (Datatypes.S n)))
    with (1 :: 2 :: seq 3 n)%nat.
  destruct (loop_body_first st) as (r & Hr).
  cbn [ProForma.for_years]. rewrite Hr. cbn [bind].
  rewrite loop_body_raises by (assumption || lia). reflexivity.
Qed.

End Loop.

(** ** The cumulative columns *)

Lemma cumsum_from_length (xs : list Q) (acc : Q) :
  length (cumsum_from acc xs) = length xs.
Proof.
  revert acc. induction xs as [|x t IH]; intros acc; simpl; [|rewrite IH];
    reflexivity.
Qed.

Lemma cumsum_length (xs : list Q) : length (cumsum xs) = length xs.
Proof.
  destruct xs as [|x t]; simpl; [|rewrite cumsum_from_length]; reflexivity.
Qed.

Lemma cumsum_from_nth (xs : list Q) (acc : Q) (k : nat) :
  (k < length xs)%nat ->
  exists c, nth_error (cumsum_from acc xs) k = Some c /\
            c == acc + Qsum (firstn (Datatypes.S k) xs).
Proof.
  revert acc k. induction xs as [|x t IH]; intros acc k Hk; simpl in Hk.
  - inversion Hk.
  - destruct k as [|k].
    + exists (acc + x). split; [reflexivity|].
      unfold Qsum. simpl. lra.
    + destruct (IH (acc + x) k) as (c & Hn & Hc); [lia|].
      exists c. split; [exact Hn|].
      rewrite Hc. unfold Qsum. simpl. lra.
Qed.

Lemma cumsum_nth (xs : list Q) (k : nat) :
  (k < length xs)%nat ->
  exists c, nth_error (cumsum xs) k = Some c /\
            c == Qsum (firstn (Datatypes.S k) xs).
Proof.
  destruct xs as [|x t]; simpl; intros Hk.
  - inversion Hk.
  - destruct k as [|k].
    + exists x. split; [reflexivity|]. unfold Qsum. simpl. lra.
    + destruct (cumsum_from_nth t x k) as (c & Hn & Hc); [lia|].
      exists c. split; [exact Hn|].
      rewrite Hc. unfold Qsum. simpl. lra.
Qed.

Lemma cumsum_from_step (xs : list Q) (acc : Q) (k : nat) (a b : Q) :
  Forall (fun x => 0 <= x) xs ->
  nth_error (cumsum_from acc xs) k = Some a ->
  nth_error (cumsum_from acc xs) (Datatypes.S k) = Some b ->
  a <= b.
Proof.
  intros Hpos. revert acc k.
  induction Hpos as [|x t Hx Ht IH]; intros acc k Ha Hb.
  - destruct k; discriminate.
  - destruct k as [|k]; simpl in Ha, Hb.
    + inversion Ha; subst a; clear Ha.
      destruct Ht as [|y t' Hy _]; simpl in Hb; [discriminate|].
      inversion Hb; subst b. lra.
    + exact (IH (acc + x) k Ha Hb).
Qed.

Lemma cumsum_step (xs : list Q) (k : nat) (a b : Q) :
  Forall (fun x => 0 <= x) xs ->
  nth_error (cumsum xs) k = Some a ->
  nth_error (cumsum xs) (Datatypes.S k) = Some b ->
  a <= b.
Proof.
  intros Hpos Ha Hb.
  destruct Hpos as [|x t Hx Ht]; [destruct k; discriminate|].
  destruct k as [|k]; simpl in Ha, Hb.
  - inversion Ha; subst a; clear Ha.
    destruct Ht as [|y t' Hy _]; simpl in Hb; [discriminate|].
    inversion Hb; subst b. lra.
  - exact (cumsum_from_step t x k a b Ht Ha Hb).
Qed.

(** ** The frame that the projector returns *)

(** A frame is returned exactly from a loop that ended, with at least one
    row; it then has the invariant of the last year. *)
Lemma pf_ok (i : Inputs) (g : ProFormaInputs) (d : DataFrame) :
  ProForma.pf i g = Ok d ->
  exists v s,
    ProForma.value_per_recovered_lb i = Ok v /\
    loop_inv i g v (years g) (s, records d) /\
    (1 <= years g)%nat /\
    Cumulative_net_proceeds d = cumsum (map Net_proceeds (records d)) /\
    Cumulative_workforce_reinvest d
    = cumsum (map Workforce_reinvest (records d)).
Proof.
  unfold ProForma.pf, ProForma.loop. intros H.
  destruct (ProForma.value_per_recovered_lb i) as [v|e] eqn:Ev;
    simpl in H; [|discriminate].
  destruct (ProForma.for_years i g (seq 1 (years g)) _) as [[s rows]|e] eqn:El;
    simpl in H; [|discriminate].
  pose proof (for_years_inv i g v (years g) 0 _ _ (loop_inv_start i g v) El)
    as Hinv.
  simpl in Hinv.
  destruct rows as [|r rows]; [discriminate|].
  inversion H; subst d; clear H. simpl.
  exists v, s. repeat split; try apply Hinv.
  destruct Hinv as (_ & Hlen & _). simpl in Hlen. lia.
Qed.

(** Every row of a returned frame is the row of its year, computed from the
    spec's state of that year. *)
Lemma pf_row (i : Inputs) (g : ProFormaInputs) (d : DataFrame) (v : Q)
  (s : Running) (k : nat) (r : Row) :
  loop_inv i g v (years g) (s, records d) ->
  nth_error (records d) k = Some r ->
  (k < years g)%nat /\
  ProForma.row_of i g (Datatypes.S k) (spec_state i g v (Datatypes.S k))
  = Ok r.
Proof.
  intros (_ & Hlen & Hrows) Hn. cbn [snd] in Hlen, Hrows.
  assert (Hk : (k < years g)%nat).
  { rewrite <- Hlen. apply nth_error_Some. congruence. }
  split; [exact Hk|].
  destruct (Hrows k Hk) as (r' & Hn' & Hr').
  congruence.
Qed.

Lemma pf_total (i : Inputs) (g : ProFormaInputs) :
  (1 <= years g)%nat -> ~ 1 + growth_sites g == 0 ->
  exists d, ProForma.pf i g = Ok d /\ length (records d) = years g.
Proof.
  intros Hy Hg. unfold ProForma.pf, ProForma.loop.
  destruct (value_per_recovered_lb_cases i) as [[_ Hv] | [_ Hv]];
    rewrite Hv; cbn [bind];
    match goal with
    | |- context [ProForma.for_years i g ?ys ?st] =>
        destruct (for_years_total i g ys st Hg) as ([s rows] & Hl);
        pose proof (for_years_inv i g _ (years g) 0 _ _
                      (loop_inv_start i g _) Hl) as (_ & Hlen & _);
        rewrite Hl
    end;
    cbn [bind snd]; simpl in Hlen;
    (destruct rows as [|r rows]; [simpl in Hlen; lia|]);
    eexists; (split; [reflexivity | exact Hlen]).
Qed.

Lemma pf_raises (i : Inputs) (g : ProFormaInputs) :
  (2 <= years g)%nat -> 1 + growth_sites g == 0 ->
  ProForma.pf i g = Raise ZeroDivisionError.
Proof.
  intros Hy Hg. unfold ProForma.pf, ProForma.loop.
  destruct (years g) as [|[|n]]; [lia | lia |].
  destruct (value_per_recovered_lb_cases i) as [[_ Hv] | [_ Hv]];
    rewrite Hv; cbn [bind];
    rewrite for_years_raises by assumption; reflexivity.
Qed.

(** With no year the frame has no column to sum. *)
Lemma pf_no_year (i : Inputs) (g : ProFormaInputs) :
  years g = 0%nat -> ProForma.pf i g = Raise KeyError.
Proof.
  intros Hy. unfold ProForma.pf, ProForma.loop. rewrite Hy.
  destruct (value_per_recovered_lb_cases i) as [[_ Hv] | [_ Hv]];
    rewrite Hv; reflexivity.
Qed.

(** With zero site growth the number of sites stays the baseline's. *)
Lemma spec_state_sites_constant (i : Inputs) (g : ProFormaInputs) (v : Q)
  (y : nat) :
  growth_sites g == 0 -> sites_y (spec_state i g v y) == sites i.
Proof.
  intros Hg. destruct y as [|y]; [reflexivity|].
  induction y as [|y IH]; [reflexivity|].
  rewrite spec_state_next. simpl sites_y at 1.
  unfold ProForma.grow. cbn [sites_y]. rewrite IH, Hg. lra.
Qed.

Lemma Qpower_succ (b : Q) (n : nat) :
  b ^ Z.of_nat (Datatypes.S n) == b ^ Z.of_nat n * b.
Proof.
  rewrite Nat2Z.inj_succ. unfold Z.succ.
  rewrite Qpower_plus' by lia. reflexivity.
Qed.

(** The spec's state in closed form: year [n + 1] has each seed value
    times one plus its growth rate to the power [n]. *)
Lemma spec_state_compounded (i : Inputs) (g : ProFormaInputs) (v : Q)
  (n : nat) :
  let s := spec_state i g v (Datatypes.S n) in
  sites_y s == sites i * (1 + growth_sites g) ^ Z.of_nat n /\
  lbs_site_y s == lbs_per_site_month i * (1 + growth_lbs g) ^ Z.of_nat n /\
  vpr s == v * (1 + growth_price g) ^ Z.of_nat n /\
  op_cost_site_y s
  == op_cost_site_month i * 12 * (1 + growth_cost g) ^ Z.of_nat n.
Proof.
  induction n as [|n IH].
  - simpl. unfold ProForma.op_cost_per_site. repeat split; lra.
  - destruct IH as (H1 & H2 & H3 & H4).
    rewrite spec_state_next. unfold ProForma.grow. cbn zeta.
    cbn [sites_y lbs_site_y vpr op_cost_site_y].
    rewrite !Qpower_succ, H1, H2, H3, H4.
    repeat split; ring.
Qed.

(** ** The projector *)

(** C5: in a returned projection the row of year 1 is computed from the
    seeded state, the state of every later year is the state of the year
    before with sites, pounds per site, value per pound and cost per site
    each multiplied by one plus its growth rate, and in every row the
    recovered pounds are the incoming pounds times the one clamped recovery
    rate, which is the recovery rate itself when that lies in [0,1]. *)
Theorem compounding_before_row (i : Inputs) (g : ProFormaInputs)
  (d : DataFrame) :
  ProForma.pf i g = Ok d ->
  exists v,
    ProForma.value_per_recovered_lb i = Ok v /\
    spec_state i g v 1
    = {| sites_y := sites i;
         lbs_site_y := lbs_per_site_month i;
         vpr := v;
         op_cost_site_y := op_cost_site_month i * 12 |} /\
    (forall y, (1 <= y)%nat ->
       let s := spec_state i g v y in
       spec_state i g v (Datatypes.S y)
       = {| sites_y := sites_y s * (1 + growth_sites g);
            lbs_site_y := lbs_site_y s * (1 + growth_lbs g);
            vpr := vpr s * (1 + growth_price g);
            op_cost_site_y := op_cost_site_y s * (1 + growth_cost g) |}) /\
    length (records d) = years g /\
    (forall y, (1 <= y <= years g)%nat ->
       let s := spec_state i g v y in
       exists r,
         nth_error (records d) (y - 1) = Some r /\
         Year r = y /\
         Sites r = sites_y s /\
         Annual_incoming_lbs r = sites_y s * lbs_site_y s * 12 /\
         Annual_recovered_lbs r = Annual_incoming_lbs r * Core.R i /\
         (0 <= recovery_rate i <= 1 ->
          Annual_recovered_lbs r == Annual_incoming_lbs r * recovery_rate i) /\
         Gross_value r = Annual_recovered_lbs r * vpr s /\
         Operating_cost r = sites_y s * op_cost_site_y s /\
         Net_proceeds r = Gross_value r - Operating_cost r).
Proof.
  intros Hpf.
  destruct (pf_ok i g d Hpf) as (v & s & Hv & Hinv & Hy & _).
  exists v. split; [exact Hv|]. split; [reflexivity|]. split.
  { intros y Hy1. destruct y as [|y]; [lia | reflexivity]. }
  destruct Hinv as (_ & Hlen & Hrows). cbn [snd] in Hlen, Hrows.
  split; [exact Hlen|].
  intros y [Hy1 Hy2] s0.
  destruct (Hrows (y - 1)%nat) as (r & Hn & Hr); [lia|].
  replace (Datatypes.S (y - 1)) with y in Hr by lia.
  apply row_of_fields in Hr.
  destruct Hr as (H1 & H2 & H3 & H4 & H5 & H6 & H7 & _ & _).
  exists r. repeat (split; [assumption|]).
  split; [|repeat split; assumption].
  intros Hrange. rewrite H4. unfold Core.R.
  rewrite (clamp_inside _ Hrange). reflexivity.
Qed.

Lemma compounding_before_row_witness :
  exists d,
    ProForma.pf default_inputs default_pro_forma = Ok d /\
    exists r2 r3,
      nth_error (records d) 1 = Some r2 /\
      nth_error (records d) 2 = Some r3 /\
      Sites r2 == 1.25 /\
      Sites r3 == 1.5625 /\
      Annual_incoming_lbs r3 == 1.5625 * (80000 * 1.05 * 1.05) * 12 /\
      Annual_recovered_lbs r3 == Annual_incoming_lbs r3 * 0.90.
Proof.
  eexists. split; [vm_compute; reflexivity|].
  match goal with
  | |- context [records ?d] =>
      destruct (compounding_before_row default_inputs default_pro_forma d)
        as (v & _ & H1 & Hstep & _ & Hrows); [vm_compute; reflexivity|]
  end.
  destruct (Hrows 2%nat) as (r2 & Hn2 & _ & Hs2 & _); [simpl; lia|].
  destruct (Hrows 3%nat)
    as (r3 & Hn3 & _ & Hs3 & Hw3 & Hrec3 & Hrate3 & _); [simpl; lia|].
  exists r2, r3.
  split; [exact Hn2|]. split; [exact Hn3|].
  rewrite (Hstep 1%nat) in Hs2 by lia.
  rewrite (Hstep 2%nat), (Hstep 1%nat) in Hs3, Hw3 by lia.
  rewrite H1 in Hs2, Hs3, Hw3. cbn [sites_y lbs_site_y] in Hs2, Hs3, Hw3.
  split; [rewrite Hs2; q_eval|].
  split; [rewrite Hs3; q_eval|].
  split; [rewrite Hw3; q_eval|].
  apply Hrate3. q_eval.
Defined.

(** The capital expenditure column as the loop writes it: floored at 0 in
    every year, the first included. *)
Lemma capex_column (i : Inputs) (g : ProFormaInputs) (d : DataFrame)
  (k : nat) (r : Row) :
  ProForma.pf i g = Ok d ->
  nth_error (records d) k = Some r ->
  (k = 0%nat ->
   Sites r = sites i /\
   CapEx_new_sites r = Qmax (Sites r * capex_per_site i) 0) /\
  ((0 < k)%nat ->
   ~ 1 + growth_sites g == 0 /\
   CapEx_new_sites r
   = Qmax ((Sites r - Sites r / (1 + growth_sites g)) * capex_per_site i) 0) /\
  (growth_sites g == 0 -> Sites r == sites i).
Proof.
  intros Hpf Hn.
  destruct (pf_ok i g d Hpf) as (v & s & _ & Hinv & _).
  destruct (pf_row i g d v s k r Hinv Hn) as (_ & Hr).
  apply row_of_fields in Hr.
  destruct Hr as (_ & Hs & _ & _ & _ & _ & _ & Hc & _).
  split; [|split].
  - intros ->. rewrite capex_of_first in Hc.
    inversion Hc as [Hc']. rewrite Hs. split; reflexivity.
  - intros Hk.
    assert (Hg : ~ 1 + growth_sites g == 0).
    { intros Hz. rewrite capex_of_raises in Hc by (lia || assumption).
      discriminate. }
    split; [exact Hg|].
    rewrite capex_of_later in Hc by (lia || assumption).
    inversion Hc as [Hc']. rewrite Hs. reflexivity.
  - intros Hg. rewrite Hs. apply spec_state_sites_constant. exact Hg.
Qed.

(** C8: in a returned projection the two cumulative columns hold, in each
    row, the sum of the net proceeds (of the workforce reinvestment) of the
    rows up to and including that row, and a cumulative column does not
    decrease from a row to the next when no yearly value is negative. *)
Theorem cumulative_columns (i : Inputs) (g : ProFormaInputs) (d : DataFrame) :
  ProForma.pf i g = Ok d ->
  (forall k r, nth_error (records d) k = Some r ->
     exists cn cw,
       nth_error (Cumulative_net_proceeds d) k = Some cn /\
       nth_error (Cumulative_workforce_reinvest d) k = Some cw /\
       cn == Qsum (map Net_proceeds (firstn (Datatypes.S k) (records d))) /\
       cw == Qsum (map Workforce_reinvest
                     (firstn (Datatypes.S k) (records d)))) /\
  ((forall r, In r (records d) -> 0 <= Net_proceeds r) ->
   forall k a b,
     nth_error (Cumulative_net_proceeds d) k = Some a ->
     nth_error (Cumulative_net_proceeds d) (Datatypes.S k) = Some b ->
     a <= b) /\
  ((forall r, In r (records d) -> 0 <= Workforce_reinvest r) ->
   forall k a b,
     nth_error (Cumulative_workforce_reinvest d) k = Some a ->
     nth_error (Cumulative_workforce_reinvest d) (Datatypes.S k) = Some b ->
     a <= b).
Proof.
  intros Hpf.
  destruct (pf_ok i g d Hpf) as (v & s & _ & _ & _ & Hcn & Hcw).
  rewrite Hcn, Hcw. split; [|split].
  - intros k r Hn.
    assert (Hk : (k < length (records d))%nat)
      by (apply nth_error_Some; congruence).
    destruct (cumsum_nth (map Net_proceeds (records d)) k)
      as (cn & Hn1 & Hs1); [now rewrite length_map|].
    destruct (cumsum_nth (map Workforce_reinvest (records d)) k)
      as (cw & Hn2 & Hs2); [now rewrite length_map|].
    exists cn, cw. rewrite <- !firstn_map. auto.
  - intros Hpos. intros k a b. apply cumsum_step.
    apply Forall_forall. intros x Hx.
    apply in_map_iff in Hx. destruct Hx as (r & <- & Hr). auto.
  - intros Hpos. intros k a b. apply cumsum_step.
    apply Forall_forall. intros x Hx.
    apply in_map_iff in Hx. destruct Hx as (r & <- & Hr). auto.
Qed.

Lemma cumulative_columns_witness :
  exists d a b,
    ProForma.pf default_inputs default_pro_forma = Ok d /\
    nth_error (Cumulative_net_proceeds d) 3 = Some a /\
    nth_error (Cumulative_net_proceeds d) 4 = Some b /\
    b == Qsum (map Net_proceeds (records d)) /\
    a <= b.
Proof.
  destruct (ProForma.pf default_inputs default_pro_forma) as [d|e] eqn:Epf;
    [|vm_compute in Epf; discriminate].
  destruct (cumulative_columns _ _ d Epf) as (Hsum & Hmono & _).
  assert (Hd : records d <> [] /\ length (records d) = 5%nat /\
               forall r, In r (records d) -> 0 <= Net_proceeds r).
  { vm_compute in Epf. inversion Epf; subst d; clear.
    split; [discriminate|]. split; [reflexivity|].
    intros r Hr. cbn [records In] in Hr.
    repeat (destruct Hr as [<- | Hr]; [vm_compute; discriminate|]).
    contradiction. }
  destruct Hd as (_ & Hlen & Hpos).
  destruct (nth_error (records d) 3) as [r3|] eqn:E3;
    [|apply nth_error_None in E3; lia].
  destruct (nth_error (records d) 4) as [r4|] eqn:E4;
    [|apply nth_error_None in E4; lia].
  destruct (Hsum 3%nat r3 E3) as (a & _ & Ha & _).
  destruct (Hsum 4%nat r4 E4) as (b & _ & Hb & _ & Hs & _).
  exists d, a, b.
  split; [reflexivity|]. split; [exact Ha|]. split; [exact Hb|].
  split.
  - rewrite Hs. rewrite firstn_all2 by lia. reflexivity.
  - exact (Hmono Hpos 3%nat a b Ha Hb).
Defined.

(** A projection of one year never divides. *)
Lemma pf_single_year (i : Inputs) (g : ProFormaInputs) :
  years g = 1%nat ->
  exists d, ProForma.pf i g = Ok d /\ length (records d) = 1%nat.
Proof.
  intros Hy. unfold ProForma.pf, ProForma.loop. rewrite Hy.
  destruct (value_per_recovered_lb_cases i) as [[_ Hv] | [_ Hv]];
    rewrite Hv; cbn [bind seq ProForma.for_years];
    match goal with
    | |- context [ProForma.loop_body i g 1 ?st] =>
        destruct (loop_body_first i g st) as (r & Hr); rewrite Hr
    end;
    eexists; (split; [reflexivity|reflexivity]).
Qed.

(** C10: a projection of more than one year raises the division by zero
    when the site growth is -1, where sites / (1 + site growth) divides by
    0, and returns its frame, one row per year, for every other site
    growth. *)
Theorem projector_divides_by_zero (i : Inputs) (g : ProFormaInputs) :
  (2 <= years g)%nat ->
  (growth_sites g == -1 -> ProForma.pf i g = Raise ZeroDivisionError) /\
  (~ growth_sites g == -1 ->
   exists d, ProForma.pf i g = Ok d /\ length (records d) = years g).
Proof.
  intros Hy. split; intros Hg.
  - apply pf_raises; [exact Hy | lra].
  - apply pf_total; [lia | lra].
Qed.

Lemma projector_divides_by_zero_witness :
  (2 <= 3)%nat /\
  ProForma.pf default_inputs (with_site_growth 3 (-1) default_pro_forma)
  = Raise ZeroDivisionError.
Proof.
  split; [lia|].
  apply (projector_divides_by_zero default_inputs
           (with_site_growth 3 (-1) default_pro_forma)).
  - simpl. lia.
  - reflexivity.
Defined.

(** The default pro forma: five rows, capital expenditure on every site in
    year 1 and on the added quarter of the sites in each later year. *)
Example default_pro_forma_capex :
  match ProForma.pf default_inputs default_pro_forma with
  | Ok d => map (fun r => Qred (CapEx_new_sites r)) (records d)
  | Raise _ => []
  end
  = map Qred [120000; 30000; 37500; 46875; 58593.75].
Proof. vm_compute. reflexivity. Qed.

(** With the site growth -1 and one year only there is nothing to divide. *)
Example single_year_no_division :
  exists d,
    ProForma.pf default_inputs (with_site_growth 1 (-1) default_pro_forma)
    = Ok d /\ length (records d) = 1%nat.
Proof. apply pf_single_year. reflexivity. Qed.

(** * Further properties of the helpers *)

(** The four cases of [clamp x lo hi]. *)
Ltac clamp_cases_at x lo hi :=
  unfold clamp;
  destruct (Q.max_spec x lo) as [[? ?] | [? ?]];
  destruct (Q.min_spec (Qmax x lo) hi) as [[? ?] | [? ?]].

(** X1: with bounds in order the result of [clamp] lies between them, is
    the argument itself when that lies between them, and is the nearer bound
    otherwise. *)
Theorem clamp_bounds (x lo hi : Q) :
  lo <= hi ->
  lo <= clamp x lo hi <= hi /\
  (lo <= x <= hi -> clamp x lo hi == x) /\
  (x <= lo -> clamp x lo hi == lo) /\
  (hi <= x -> clamp x lo hi == hi).
Proof.
  intros Hb. clamp_cases_at x lo hi; repeat split; intros; lra.
Qed.

Lemma clamp_bounds_witness :
  2 <= clamp 7 2 5 <= 5 /\ clamp 7 2 5 == 5.
Proof.
  destruct (clamp_bounds 7 2 5) as (Hr & _ & _ & Hhi); [q_eval|].
  split; [exact Hr | apply Hhi; q_eval].
Defined.

(** X2: [clamp] never reverses an order, whatever the bounds. *)
Theorem clamp_monotone (x y lo hi : Q) :
  x <= y -> clamp x lo hi <= clamp y lo hi.
Proof.
  intros Hxy. unfold clamp.
  destruct (Q.max_spec x lo) as [[? ?] | [? ?]];
    destruct (Q.max_spec y lo) as [[? ?] | [? ?]];
    destruct (Q.min_spec (Qmax x lo) hi) as [[? ?] | [? ?]];
    destruct (Q.min_spec (Qmax y lo) hi) as [[? ?] | [? ?]];
    lra.
Qed.

Lemma clamp_monotone_witness : clamp (-3) 0 1 <= clamp 0.4 0 1.
Proof. apply clamp_monotone. q_eval. Defined.

(** X3: clamping twice is clamping once, and with the bounds in the wrong
    order [clamp] raises nothing and returns the upper one. *)
Theorem clamp_idempotent (x lo hi : Q) :
  clamp (clamp x lo hi) lo hi == clamp x lo hi /\
  (hi < lo -> clamp x lo hi == hi).
Proof.
  split.
  - unfold clamp.
    destruct (Q.max_spec (Qmin (Qmax x lo) hi) lo) as [[? ?] | [? ?]];
      destruct (Q.min_spec (Qmax (Qmin (Qmax x lo) hi) lo) hi)
        as [[? ?] | [? ?]];
      destruct (Q.max_spec x lo) as [[? ?] | [? ?]];
      destruct (Q.min_spec (Qmax x lo) hi) as [[? ?] | [? ?]];
      lra.
  - intros Hinv. clamp_cases_at x lo hi; lra.
Qed.

Lemma traffic_light_iff (value target warn_band : Q) :
  (traffic_light value target warn_band = Green <-> target <= value) /\
  (traffic_light value target warn_band = Yellow <->
   value < target /\ target - warn_band <= value) /\
  (traffic_light value target warn_band = Red <->
   value < target /\ value < target - warn_band).
Proof.
  unfold traffic_light.
  destruct (Qle_bool target value) eqn:Eg;
    [apply Qle_bool_iff in Eg | apply Qle_bool_false in Eg];
    (destruct (Qle_bool (target - warn_band) value) eqn:Ey;
     [apply Qle_bool_iff in Ey | apply Qle_bool_false in Ey]);
    repeat split; intros; try reflexivity; try discriminate; try lra;
    match goal with
    | H : _ /\ _ |- _ => destruct H; exfalso; lra
    end.
Qed.

(** X4: a higher value never gets a worse light. *)
Theorem traffic_light_monotone (v1 v2 target warn_band : Q) :
  v1 <= v2 ->
  (light_rank (traffic_light v1 target warn_band)
   <= light_rank (traffic_light v2 target warn_band))%nat.
Proof.
  intros Hv.
  destruct (traffic_light_iff v1 target warn_band) as (G1 & Y1 & R1).
  destruct (traffic_light_iff v2 target warn_band) as (G2 & Y2 & R2).
  destruct (traffic_light v1 target warn_band) eqn:E1;
    destruct (traffic_light v2 target warn_band) eqn:E2;
    simpl; try lia; exfalso.
  - pose proof (proj1 G1 eq_refl). destruct (proj1 Y2 eq_refl). lra.
  - pose proof (proj1 G1 eq_refl). destruct (proj1 R2 eq_refl). lra.
  - destruct (proj1 Y1 eq_refl). destruct (proj1 R2 eq_refl). lra.
Qed.

Lemma traffic_light_monotone_witness :
  (light_rank (traffic_light 0.86 0.90 0.05)
   <= light_rank (traffic_light 0.91 0.90 0.05))%nat.
Proof. apply traffic_light_monotone. q_eval. Defined.

(** X5: with a band that is zero or negative no value is yellow. *)
Theorem traffic_light_no_band (value target warn_band : Q) :
  warn_band <= 0 -> traffic_light value target warn_band <> Yellow.
Proof.
  intros Hb Hy.
  destruct (traffic_light_iff value target warn_band) as (_ & Y & _).
  destruct (proj1 Y Hy). lra.
Qed.

Lemma traffic_light_no_band_witness :
  traffic_light 0.89 0.90 0 <> Yellow.
Proof. apply traffic_light_no_band. q_eval. Defined.

(** * Further properties of the monthly model *)

(** X9: with a placement rate in [0,1] and trainees and sites that are not
    negative, the jobs placed lie between 0 and the trainees. *)
Theorem placed_within_trainees (i : Inputs) :
  0 <= trainees_per_site_year i ->
  0 <= sites i ->
  0 <= placement_rate i <= 1 ->
  0 <= Core.placed_total_year i <= Core.trainees_total_year i.
Proof.
  intros Ht Hs [H0 H1].
  unfold Core.placed_total_year, Core.trainees_total_year.
  assert (Hn : 0 <= trainees_per_site_year i * sites i) by nra.
  split; nra.
Qed.

Lemma placed_within_trainees_witness :
  0 <= Core.placed_total_year default_inputs
    <= Core.trainees_total_year default_inputs.
Proof. apply placed_within_trainees; q_eval. Defined.

(** The gross value is the recovered pounds times a value per pound that
    the throughput does not enter. *)
Lemma gross_value_per_recovered (i : Inputs) :
  Core.gross_value i ==
  Core.recovered i *
  ((1 - Core.S i) * Core.Y i * (1 - Core.D i) *
   (clamp (sell_share i) 0 1 * sell_price_lb i +
    (1 - clamp (sell_share i) 0 1) * internal_value_lb i) +
   disposal_avoid_lb i + carbon_value_lb i).
Proof.
  unfold Core.gross_value, Core.sell_rev, Core.internal_val, Core.disp_avoid,
    Core.carbon_val, Core.sold_lbs, Core.internal_lbs, Core.finished,
    Core.usable.
  ring.
Qed.

Lemma recovered_nonneg (i : Inputs) : 0 <= Core.W i -> 0 <= Core.recovered i.
Proof. intros HW. destruct (flow_chain_clamped i HW) as (? & ? & ? & ?). lra. Qed.

Lemma nothing_recovered_flow (i : Inputs) :
  Core.recovered i == 0 ->
  Core.usable i == 0 /\ Core.finished i == 0 /\
  Core.sold_lbs i == 0 /\ Core.internal_lbs i == 0 /\
  Core.gross_value i == 0.
Proof.
  intros Hr.
  assert (Hu : Core.usable i == 0) by (unfold Core.usable; rewrite Hr; ring).
  assert (Hf : Core.finished i == 0)
    by (unfold Core.finished; rewrite Hu; ring).
  repeat split; try assumption.
  - unfold Core.sold_lbs. rewrite Hf. ring.
  - unfold Core.internal_lbs. rewrite Hf. ring.
  - rewrite gross_value_per_recovered, Hr. ring.
Qed.

(** X13: with no intake, no site or a recovery rate of zero or less,
    nothing is recovered: every flow and the gross value are 0, the value
    per recovered pound is 0 without a division, and with an operating cost
    that is not negative the payback is the infinity sentinel. *)
Theorem nothing_recovered (i : Inputs) :
  lbs_per_site_month i == 0 \/ sites i == 0 \/ recovery_rate i <= 0 ->
  Core.recovered i == 0 /\
  Core.usable i == 0 /\ Core.finished i == 0 /\
  Core.sold_lbs i == 0 /\ Core.internal_lbs i == 0 /\
  Core.gross_value i == 0 /\
  ProForma.value_per_recovered_lb i = Ok 0 /\
  (0 <= Core.op_cost i -> Core.payback_mo i = Ok PosInf).
Proof.
  intros H.
  assert (Hr : Core.recovered i == 0).
  { unfold Core.recovered, Core.W, Core.R.
    destruct H as [H | [H | H]].
    - rewrite H. ring.
    - rewrite H. ring.
    - rewrite (clamp_below _ H). ring. }
  destruct (nothing_recovered_flow i Hr) as (Hu & Hf & Hs & Hi & Hg).
  repeat (split; [assumption|]). split.
  - destruct (value_per_recovered_lb_cases i) as [[_ Hv] | [Hpos _]];
      [exact Hv | lra].
  - intros Hop.
    destruct (payback_cases i) as [[_ Hp] | [Hpos _]]; [exact Hp|].
    unfold Core.net_profit in Hpos. lra.
Qed.

Lemma nothing_recovered_witness :
  let i := with_rates (-0.2) 0.92 0.08 0.06 0.5 default_inputs in
  Core.finished i == 0 /\
  ProForma.value_per_recovered_lb i = Ok 0 /\
  Core.payback_mo i = Ok PosInf.
Proof.
  intros i.
  destruct (nothing_recovered i) as (_ & _ & Hf & _ & _ & _ & Hv & Hp).
  - right. right. q_eval.
  - split; [exact Hf|]. split; [exact Hv|]. apply Hp. q_eval.
Defined.

Lemma Qmult_le_mono (a b c d : Q) :
  0 <= a -> a <= b -> 0 <= c -> c <= d -> a * c <= b * d.
Proof. intros. nra. Qed.

Lemma clamp_unit_mono (x y : Q) : x <= y -> clamp x 0 1 <= clamp y 0 1.
Proof.
  intros Hxy. unfold clamp.
  destruct (Q.max_spec x 0) as [[? ?] | [? ?]];
    destruct (Q.max_spec y 0) as [[? ?] | [? ?]];
    destruct (Q.min_spec (Qmax x 0) 1) as [[? ?] | [? ?]];
    destruct (Q.min_spec (Qmax y 0) 1) as [[? ?] | [? ?]];
    lra.
Qed.

(** X14: the finished pounds never fall when the incoming flow, the
    recovery rate or the yield rises, nor when the scrap or the downtime
    falls. *)
Theorem finished_monotone (i j : Inputs) :
  0 <= Core.W i -> Core.W i <= Core.W j ->
  recovery_rate i <= recovery_rate j ->
  yield_rate i <= yield_rate j ->
  downtime_rate j <= downtime_rate i ->
  scrap_rate j <= scrap_rate i ->
  Core.finished i <= Core.finished j.
Proof.
  intros HW HWle Hr Hy Hd Hs.
  pose proof (clamp_unit_mono _ _ Hr) as HR.
  pose proof (clamp_unit_mono _ _ Hy) as HY.
  pose proof (clamp_unit_mono _ _ Hd) as HD.
  pose proof (clamp_unit_mono _ _ Hs) as HS.
  pose proof (clamped_rates_unit i) as (Ri & Yi & Di & Si & _).
  pose proof (clamped_rates_unit j) as (Rj & Yj & Dj & Sj & _).
  unfold Core.finished, Core.usable, Core.recovered.
  fold (Core.R i) (Core.R j) (Core.Y i) (Core.Y j) (Core.D i) (Core.D j)
    (Core.S i) (Core.S j) in HR, HY, HD, HS.
  assert (H1 : 0 <= Core.W i * Core.R i) by nra.
  assert (H2 : 0 <= Core.W i * Core.R i * (1 - Core.S i)) by nra.
  assert (H3 : 0 <= Core.W i * Core.R i * (1 - Core.S i) * Core.Y i) by nra.
  do 4 (apply Qmult_le_mono; try lra).
Qed.

Lemma finished_monotone_witness :
  Core.finished default_inputs
  <= Core.finished (with_rates 0.95 0.92 0.05 0.06 0.5 default_inputs).
Proof. apply finished_monotone; q_eval. Defined.

(** * Further properties of the pro forma *)

(** Every row of a returned frame, with the state it was computed from. *)
Lemma pf_row_fields (i : Inputs) (g : ProFormaInputs) (d : DataFrame)
  (k : nat) (r : Row) :
  ProForma.pf i g = Ok d ->
  nth_error (records d) k = Some r ->
  exists v,
    ProForma.value_per_recovered_lb i = Ok v /\
    (k < years g)%nat /\
    Year r = Datatypes.S k /\
    Sites r = sites_y (spec_state i g v (Datatypes.S k)) /\
    Annual_incoming_lbs r
    = sites_y (spec_state i g v (Datatypes.S k))
      * lbs_site_y (spec_state i g v (Datatypes.S k)) * 12 /\
    Annual_recovered_lbs r = Annual_incoming_lbs r * Core.R i /\
    Gross_value r
    = Annual_recovered_lbs r * vpr (spec_state i g v (Datatypes.S k)) /\
    Operating_cost r
    = sites_y (spec_state i g v (Datatypes.S k))
      * op_cost_site_y (spec_state i g v (Datatypes.S k)) /\
    Net_proceeds r = Gross_value r - Operating_cost r /\
    Workforce_reinvest r = Qmax (Net_proceeds r) 0 * reinvest_rate g.
Proof.
  intros Hpf Hn.
  destruct (pf_ok i g d Hpf) as (v & s & Hv & Hinv & _).
  destruct (pf_row i g d v s k r Hinv Hn) as (Hk & Hr).
  apply row_of_fields in Hr.
  destruct Hr as (H1 & H2 & H3 & H4 & H5 & H6 & H7 & _ & H9).
  exists v. repeat (split; [assumption|]). assumption.
Qed.

(** X15: a returned frame has one row per year, numbered from 1 in order,
    and two cumulative columns of the same length. *)
Theorem pro_forma_shape (i : Inputs) (g : ProFormaInputs) (d : DataFrame) :
  ProForma.pf i g = Ok d ->
  (1 <= years g)%nat /\
  length (records d) = years g /\
  length (Cumulative_net_proceeds d) = years g /\
  length (Cumulative_workforce_reinvest d) = years g /\
  map Year (records d) = seq 1 (years g).
Proof.
  intros Hpf.
  destruct (pf_ok i g d Hpf) as (v & s & _ & Hinv & Hy & Hcn & Hcw).
  destruct Hinv as (_ & Hlen & _). cbn [snd] in Hlen.
  split; [exact Hy|]. split; [exact Hlen|].
  rewrite Hcn, Hcw, !cumsum_length, !length_map.
  repeat (split; [exact Hlen|]).
  apply nth_error_ext. intros k.
  rewrite nth_error_map.
  destruct (nth_error (records d) k) as [r|] eqn:En; simpl.
  - destruct (pf_row_fields i g d k r Hpf En) as (_ & _ & Hk & Hyr & _).
    rewrite Hyr. symmetry.
    rewrite nth_error_nth' with (d := 0%nat) by (rewrite length_seq; lia).
    rewrite seq_nth by lia. reflexivity.
  - symmetry. apply nth_error_None. rewrite length_seq.
    apply nth_error_None in En. lia.
Qed.

Lemma pro_forma_shape_witness :
  exists d,
    ProForma.pf default_inputs default_pro_forma = Ok d /\
    length (records d) = 5%nat /\
    map Year (records d) = [1; 2; 3; 4; 5]%nat.
Proof.
  destruct (ProForma.pf default_inputs default_pro_forma) as [d|e] eqn:Epf;
    [|vm_compute in Epf; discriminate].
  destruct (pro_forma_shape _ _ d Epf) as (_ & Hlen & _ & _ & Hyears).
  exists d. split; [reflexivity|]. split; [exact Hlen | exact Hyears].
Defined.

(** X18: the workforce reinvestment of a year is the reinvestment rate
    times the net proceeds when these are positive and 0 when they are
    not, so with a rate that is not negative it is never negative. *)
Theorem workforce_reinvest_floor (i : Inputs) (g : ProFormaInputs)
  (d : DataFrame) (r : Row) :
  ProForma.pf i g = Ok d ->
  In r (records d) ->
  (Net_proceeds r <= 0 -> Workforce_reinvest r == 0) /\
  (0 <= Net_proceeds r ->
   Workforce_reinvest r == Net_proceeds r * reinvest_rate g) /\
  (0 <= reinvest_rate g -> 0 <= Workforce_reinvest r).
Proof.
  intros Hpf Hin.
  destruct (In_nth_error _ _ Hin) as (k & Hn).
  destruct (pf_row_fields i g d k r Hpf Hn)
    as (_ & _ & _ & _ & _ & _ & _ & _ & _ & _ & Hw).
  rewrite Hw.
  destruct (Q.max_spec (Net_proceeds r) 0) as [[Hlt E] | [Hle E]];
    rewrite E; repeat split; intros; try nra.
  assert (Hz : Net_proceeds r == 0) by lra. rewrite Hz. ring.
Qed.

Lemma workforce_reinvest_floor_witness :
  let i := with_rates 0 0.92 0.08 0.06 0.5 default_inputs in
  exists d r,
    ProForma.pf i default_pro_forma = Ok d /\
    nth_error (records d) 0 = Some r /\
    Net_proceeds r < 0 /\ Workforce_reinvest r == 0.
Proof.
  intros i.
  destruct (ProForma.pf i default_pro_forma) as [d|e] eqn:Epf;
    [|vm_compute in Epf; discriminate].
  destruct (nth_error (records d) 0) as [r|] eqn:Er.
  - exists d, r. split; [reflexivity|]. split; [exact Er|].
    assert (Hneg : Net_proceeds r < 0).
    { vm_compute in Epf. inversion Epf; subst d.
      vm_compute in Er. inversion Er; subst r. q_eval. }
    split; [exact Hneg|].
    destruct (workforce_reinvest_floor i default_pro_forma d r Epf
                (nth_error_In _ _ Er)) as (Hz & _).
    apply Hz. lra.
  - exfalso. vm_compute in Epf. inversion Epf; subst d.
    vm_compute in Er. discriminate.
Defined.

Lemma Qsum_nonneg (xs : list Q) :
  Forall (fun x => 0 <= x) xs -> 0 <= Qsum xs.
Proof.
  induction 1 as [|x t Hx Ht IH]; unfold Qsum in *; simpl; lra.
Qed.

Lemma Forall_firstn {A : Type} (P : A -> Prop) (n : nat) (xs : list A) :
  Forall P xs -> Forall P (firstn n xs).
Proof.
  intros H. revert n. induction H as [|x t Hx Ht IH]; intros [|n]; simpl;
    constructor; auto.
Qed.

(** X19: with a reinvestment rate that is not negative, the cumulative
    workforce reinvestment is never negative and never decreases from a
    year to the next, whatever the sign of the net proceeds. *)
Theorem cumulative_reinvest_monotone (i : Inputs) (g : ProFormaInputs)
  (d : DataFrame) :
  ProForma.pf i g = Ok d ->
  0 <= reinvest_rate g ->
  (forall k a,
     nth_error (Cumulative_workforce_reinvest d) k = Some a -> 0 <= a) /\
  (forall k a b,
     nth_error (Cumulative_workforce_reinvest d) k = Some a ->
     nth_error (Cumulative_workforce_reinvest d) (Datatypes.S k) = Some b ->
     a <= b).
Proof.
  intros Hpf Hrate.
  destruct (pf_ok i g d Hpf) as (_ & _ & _ & _ & _ & _ & Hcw).
  rewrite Hcw.
  assert (Hpos : Forall (fun x => 0 <= x)
                   (map Workforce_reinvest (records d))).
  { apply Forall_forall. intros x Hx.
    apply in_map_iff in Hx. destruct Hx as (r & <- & Hr).
    destruct (In_nth_error _ _ Hr) as (k & Hn).
    destruct (pf_row_fields i g d k r Hpf Hn)
      as (_ & _ & _ & _ & _ & _ & _ & _ & _ & _ & Hw).
    rewrite Hw.
    destruct (Q.max_spec (Net_proceeds r) 0) as [[? E] | [? E]];
      rewrite E; nra. }
  split.
  - intros k a Ha.
    assert (Hk : (k < length (map Workforce_reinvest (records d)))%nat).
    { rewrite <- cumsum_length. apply nth_error_Some. congruence. }
    destruct (cumsum_nth _ k Hk) as (c & Hc & Ec).
    rewrite Hc in Ha. inversion Ha; subst a.
    rewrite Ec. apply Qsum_nonneg, Forall_firstn, Hpos.
  - intros k a b. apply cumsum_step, Hpos.
Qed.

Lemma cumulative_reinvest_monotone_witness :
  exists d a b,
    ProForma.pf default_inputs default_pro_forma = Ok d /\
    nth_error (Cumulative_workforce_reinvest d) 0 = Some a /\
    nth_error (Cumulative_workforce_reinvest d) 1 = Some b /\
    0 <= a <= b.
Proof.
  destruct (ProForma.pf default_inputs default_pro_forma) as [d|e] eqn:Epf;
    [|vm_compute in Epf; discriminate].
  destruct (cumulative_reinvest_monotone _ _ d Epf) as (Hpos & Hmono);
    [q_eval|].
  destruct (nth_error (Cumulative_workforce_reinvest d) 0) as [a|] eqn:Ea;
    [|exfalso; vm_compute in Epf; inversion Epf; subst d;
      vm_compute in Ea; discriminate].
  destruct (nth_error (Cumulative_workforce_reinvest d) 1) as [b|] eqn:Eb;
    [|exfalso; vm_compute in Epf; inversion Epf; subst d;
      vm_compute in Eb; discriminate].
  exists d, a, b. split; [reflexivity|]. split; [exact Ea|].
  split; [exact Eb|]. split; [exact (Hpos _ _ Ea) | exact (Hmono _ _ _ Ea Eb)].
Defined.

(** Closes the directions of an equivalence between outcomes once the
    outcome is known. *)
Ltac outcome_cases :=
  repeat apply conj; intros;
  repeat match goal with
         | H : exists _, _ |- _ => destruct H
         | H : _ /\ _ |- _ => destruct H
         | H : _ \/ _ |- _ => destruct H
         end;
  try discriminate; try lia; try contradiction; try reflexivity;
  try assumption; try (split; assumption);
  try (repeat split; assumption);
  try (left; assumption); try (right; split; assumption);
  try (eexists; reflexivity).

(** X22: the three outcomes of the pro forma: it raises [KeyError]
    exactly with no year, [ZeroDivisionError] exactly with two years or more
    and a site growth of -1, and returns a frame in every other case. *)
Theorem pro_forma_outcomes (i : Inputs) (g : ProFormaInputs) :
  (ProForma.pf i g = Raise KeyError <-> years g = 0%nat) /\
  (ProForma.pf i g = Raise ZeroDivisionError <->
   (2 <= years g)%nat /\ growth_sites g == -1) /\
  ((exists d, ProForma.pf i g = Ok d) <->
   years g = 1%nat \/ ((2 <= years g)%nat /\ ~ growth_sites g == -1)).
Proof.
  destruct (Nat.eq_dec (years g) 0) as [Hy0 | Hy0].
  { rewrite (pf_no_year i g Hy0). outcome_cases. }
  destruct (Nat.eq_dec (years g) 1) as [Hy1 | Hy1].
  { destruct (pf_single_year i g Hy1) as (d & Hd & _). rewrite Hd.
    outcome_cases. }
  assert (Hy2 : (2 <= years g)%nat) by lia.
  destruct (Qeq_dec (growth_sites g) (-1)) as [Hg | Hg].
  - rewrite (pf_raises i g Hy2) by lra. outcome_cases.
  - destruct (pf_total i g) as (d & Hd & _); [lia | lra |]. rewrite Hd.
    outcome_cases.
Qed.

(** X23: the last entry of each cumulative column, the one the script
    quotes under the charts, is the sum of its whole yearly column. *)
Theorem cumulative_totals (i : Inputs) (g : ProFormaInputs) (d : DataFrame) :
  ProForma.pf i g = Ok d ->
  exists cn cw,
    nth_error (Cumulative_net_proceeds d) (years g - 1) = Some cn /\
    nth_error (Cumulative_workforce_reinvest d) (years g - 1) = Some cw /\
    cn == Qsum (map Net_proceeds (records d)) /\
    cw == Qsum (map Workforce_reinvest (records d)).
Proof.
  intros Hpf.
  destruct (pf_ok i g d Hpf) as (v & s & _ & Hinv & Hy & Hcn & Hcw).
  destruct Hinv as (_ & Hlen & _). cbn [snd] in Hlen.
  destruct (cumsum_nth (map Net_proceeds (records d)) (years g - 1))
    as (cn & Hn1 & Hs1); [rewrite length_map; lia|].
  destruct (cumsum_nth (map Workforce_reinvest (records d)) (years g - 1))
    as (cw & Hn2 & Hs2); [rewrite length_map; lia|].
  exists cn, cw. rewrite Hcn, Hcw.
  split; [exact Hn1|]. split; [exact Hn2|].
  rewrite Hs1, Hs2, !firstn_all2 by (rewrite length_map; lia).
  split; reflexivity.
Qed.

Lemma cumulative_totals_witness :
  exists d cn,
    ProForma.pf default_inputs (with_site_growth 3 0 default_pro_forma)
    = Ok d /\
    nth_error (Cumulative_net_proceeds d) 2 = Some cn /\
    cn == Qsum (map Net_proceeds (records d)).
Proof.
  destruct (ProForma.pf default_inputs
              (with_site_growth 3 0 default_pro_forma)) as [d|e] eqn:Epf;
    [|vm_compute in Epf; discriminate].
  destruct (cumulative_totals _ _ d Epf) as (cn & _ & Hn & _ & Hs & _).
  exists d, cn. split; [reflexivity|]. split; [exact Hn | exact Hs].
Defined.

(** X24: when nothing is recovered in the month, every year of a returned
    frame has gross value 0 and net proceeds minus the operating cost, and
    with sites, cost per site and cost growth factor that are not negative
    nothing is reinvested. *)
Theorem nothing_recovered_rows (i : Inputs) (g : ProFormaInputs)
  (d : DataFrame) (r : Row) :
  ProForma.pf i g = Ok d ->
  Core.recovered i <= 0 ->
  In r (records d) ->
  Gross_value r == 0 /\
  Net_proceeds r == - Operating_cost r /\
  (0 <= Operating_cost r -> Workforce_reinvest r == 0).
Proof.
  intros Hpf Hrec Hin.
  destruct (In_nth_error _ _ Hin) as (k & Hn).
  destruct (pf_row_fields i g d k r Hpf Hn)
    as (v & Hv & _ & _ & _ & _ & _ & H5 & _ & H7 & H8).
  destruct (value_per_recovered_lb_cases i) as [[_ Hv'] | [Hpos _]];
    [|lra].
  rewrite Hv' in Hv. inversion Hv; subst v; clear Hv.
  destruct (spec_state_compounded i g 0 k) as (_ & _ & C3 & _).
  cbn zeta in C3.
  assert (E1 : Gross_value r == 0) by (rewrite H5, C3; ring).
  assert (E2 : Net_proceeds r == - Operating_cost r)
    by (rewrite H7, E1; ring).
  split; [exact E1|]. split; [exact E2|].
  intros Hop. rewrite H8.
  destruct (Q.max_spec (Net_proceeds r) 0) as [[_ E] | [Hle E]];
    rewrite E; [ring|].
  assert (Hz : Net_proceeds r == 0) by lra. rewrite Hz. ring.
Qed.

Lemma nothing_recovered_rows_witness :
  let i := with_rates 0 0.92 0.08 0.06 0.5 default_inputs in
  exists d r,
    ProForma.pf i default_pro_forma = Ok d /\
    nth_error (records d) 1 = Some r /\
    Gross_value r == 0 /\ Net_proceeds r == - Operating_cost r.
Proof.
  intros i.
  destruct (ProForma.pf i default_pro_forma) as [d|e] eqn:Epf;
    [|vm_compute in Epf; discriminate].
  destruct (nth_error (records d) 1) as [r|] eqn:Er;
    [|exfalso; vm_compute in Epf; inversion Epf; subst d;
      vm_compute in Er; discriminate].
  destruct (nothing_recovered_rows i default_pro_forma d r Epf)
    as (Hg & Hnet & _); [q_eval | exact (nth_error_In _ _ Er) |].
  exists d, r. split; [reflexivity|]. split; [exact Er|].
  split; [exact Hg | exact Hnet].
Defined.

(** * Access *)

Lemma role_label_not_public (c : role_option) :
  String.eqb (role_label c) "PUBLIC" = false.
Proof. destruct c; reflexivity. Qed.

Lemma role_label_admin (c : role_option) :
  String.eqb (role_label c) "Admin" = true <-> c = Admin.
Proof. destruct c; split; intros H; try reflexivity; discriminate. Qed.

(** X25: the pro forma is drawn exactly for the organization login with
    the PIN 1234 and the role Admin; a wrong PIN stops the script before
    any figure is computed, whatever the role, and no role of the login
    leads to the public portal. *)
Theorem pro_forma_access (mode : view_mode) (pin : String.string)
  (choice : role_option) :
  (app mode pin choice = Some (Dashboard true) <->
   mode = Organization_Login /\ pin = "1234"%string /\ choice = Admin) /\
  (app mode pin choice = None <->
   mode = Organization_Login /\ pin <> "1234"%string) /\
  (app mode pin choice = Some Public_portal <->
   mode = Public_Impact_Portal).
Proof.
  unfold app, sign_in.
  destruct mode; cbn [mode_label].
  - change (String.eqb "Public Impact Portal" "Organization Login")
      with false.
    cbv iota. cbn [option_map]. change (render "PUBLIC") with Public_portal.
    outcome_cases.
  - change (String.eqb "Organization Login" "Organization Login") with true.
    cbv iota.
    destruct (String.eqb pin "1234") eqn:Epin; cbn [negb option_map].
    + apply String.eqb_eq in Epin. unfold render.
      rewrite role_label_not_public.
      destruct (String.eqb (role_label choice) "Admin") eqn:Eadm;
        cbn [negb].
      * apply role_label_admin in Eadm. outcome_cases.
      * assert (Hna : choice <> Admin) by (intros ->; discriminate).
        outcome_cases.
    + apply String.eqb_neq in Epin. outcome_cases.
Qed.

(** * What the workforce assumptions reach *)

(** Unfolds the monthly model down to the input fields. *)
Ltac unfold_core :=
  unfold Core.payback_mo, Core.net_profit, Core.capex_total, Core.op_cost,
    Core.gross_value, Core.sell_rev, Core.internal_val, Core.disp_avoid,
    Core.carbon_val, Core.sold_lbs, Core.internal_lbs, Core.finished,
    Core.usable, Core.recovered, Core.W, Core.R, Core.Y, Core.D, Core.S.

Section Workforce.

Variables t p w : Q.
Variable i : Inputs.
Variable g : ProFormaInputs.

Lemma workforce_finished :
  Core.finished (with_workforce t p w i) = Core.finished i.
Proof. unfold_core. reflexivity. Qed.

Lemma workforce_recovered :
  Core.recovered (with_workforce t p w i) = Core.recovered i.
Proof. unfold_core. reflexivity. Qed.

Lemma workforce_gross_value :
  Core.gross_value (with_workforce t p w i) = Core.gross_value i.
Proof. unfold_core. reflexivity. Qed.

Lemma workforce_net_profit :
  Core.net_profit (with_workforce t p w i) = Core.net_profit i.
Proof. unfold_core. reflexivity. Qed.

Lemma workforce_payback_mo :
  Core.payback_mo (with_workforce t p w i) = Core.payback_mo i.
Proof.
  unfold Core.payback_mo. rewrite workforce_net_profit. reflexivity.
Qed.

Lemma workforce_value_per_recovered_lb :
  ProForma.value_per_recovered_lb (with_workforce t p w i)
  = ProForma.value_per_recovered_lb i.
Proof.
  unfold ProForma.value_per_recovered_lb.
  now rewrite workforce_recovered, workforce_gross_value.
Qed.

Lemma workforce_row_of (y : nat) (s : Running) :
  ProForma.row_of (with_workforce t p w i) g y s = ProForma.row_of i g y s.
Proof. reflexivity. Qed.

Lemma workforce_for_years (ys : list nat) (st : Running * list Row) :
  ProForma.for_years (with_workforce t p w i) g ys st
  = ProForma.for_years i g ys st.
Proof.
  revert st. induction ys as [|y ys IH]; intros st; [reflexivity|].
  cbn [ProForma.for_years]. unfold ProForma.loop_body.
  rewrite workforce_row_of.
  destruct (ProForma.row_of i g y _); cbn [bind]; [apply IH | reflexivity].
Qed.

Lemma workforce_pf :
  ProForma.pf (with_workforce t p w i) g = ProForma.pf i g.
Proof.
  unfold ProForma.pf, ProForma.loop.
  rewrite workforce_value_per_recovered_lb.
  destruct (ProForma.value_per_recovered_lb i) as [v|e]; [|reflexivity].
  cbn [bind].
  change (ProForma.initial (with_workforce t p w i) v)
    with (ProForma.initial i v).
  rewrite workforce_for_years. reflexivity.
Qed.

End Workforce.

(** X26: the trainees per site, the placement rate and the wage uplift
    reach the trainee and placement counts only: the material flow, the
    monthly finances, the payback and the whole pro forma, workforce
    reinvestment included, are the same whatever their values. *)
Theorem workforce_inputs_unused (t p w : Q) (i : Inputs)
  (g : ProFormaInputs) :
  Core.finished (with_workforce t p w i) = Core.finished i /\
  Core.gross_value (with_workforce t p w i) = Core.gross_value i /\
  Core.net_profit (with_workforce t p w i) = Core.net_profit i /\
  Core.payback_mo (with_workforce t p w i) = Core.payback_mo i /\
  ProForma.pf (with_workforce t p w i) g = ProForma.pf i g.
Proof.
  repeat apply conj.
  - apply workforce_finished.
  - apply workforce_gross_value.
  - apply workforce_net_profit.
  - apply workforce_payback_mo.
  - apply workforce_pf.
Qed.

(** * The payback and the light in binary64 *)

Set Warnings "-inexact-float".







(** At the break-even of the decimal inputs (1000 pounds, 8065.5984 dollars
    of cost) the two embeddings part: the exact gross value equals the cost
    and gives the sentinel, the rounded gross value is one unit in the last
    place above it and gives a payback of 1.3194139533312e+17 months. *)
Example break_even_rounding :
  B64.payback_mo (B64.defaults_with 1 1000 8065.5984)
  = Ok 1.3194139533312e+17%float /\
  Core.gross_value
    (with_capex 120000
       {| sites := 1; lbs_per_site_month := 1000; recovery_rate := 0.90;
          yield_rate := 0.92; downtime_rate := 0.08; scrap_rate := 0.06;
          sell_share := 0.50; sell_price_lb := 10; internal_value_lb := 12;
          disposal_avoid_lb := 0.15; carbon_value_lb := 0.06;
          op_cost_site_month := 8065.5984; capex_per_site := 0;
          trainees_per_site_year := 80; placement_rate := 0.70;
          avg_wage_uplift := 8 |})
  == 8065.5984.
Proof. split; vm_compute; reflexivity. Qed.



(** * The capital expenditure floor *)

(** C6 (as amended): in a returned projection the capital expenditure of
    year 1 is sites x capex per site floored at 0, and that of every later
    year is (sites - sites / (1 + site growth)) x capex per site floored at
    0; with zero site growth every row has the baseline's sites and every
    year after the first has capital expenditure 0. *)
Theorem capex_floored (i : Inputs) (g : ProFormaInputs) (d : DataFrame)
  (k : nat) (r : Row) :
  ProForma.pf i g = Ok d ->
  nth_error (records d) k = Some r ->
  (k = 0%nat ->
   CapEx_new_sites r == Qmax (Sites r * capex_per_site i) 0) /\
  ((0 < k)%nat ->
   CapEx_new_sites r
   == Qmax ((Sites r - Sites r / (1 + growth_sites g)) * capex_per_site i) 0) /\
  (growth_sites g == 0 ->
   Sites r == sites i /\ ((0 < k)%nat -> CapEx_new_sites r == 0)).
Proof.
  intros Hpf Hn.
  destruct (capex_column i g d k r Hpf Hn) as (H1 & H2 & H3).
  split; [|split].
  - intros Hk. destruct (H1 Hk) as (_ & ->). reflexivity.
  - intros Hk. destruct (H2 Hk) as (_ & ->). reflexivity.
  - intros Hg. split; [exact (H3 Hg)|].
    intros Hk. destruct (H2 Hk) as (_ & ->).
    assert (Hz : (Sites r - Sites r / (1 + growth_sites g))
                 * capex_per_site i == 0) by (rewrite Hg; field).
    rewrite Hz. reflexivity.
Qed.

Lemma capex_floored_witness :
  exists d r,
    ProForma.pf default_inputs (with_site_growth 3 0 default_pro_forma)
    = Ok d /\
    nth_error (records d) 2 = Some r /\
    Sites r == 1 /\ CapEx_new_sites r == 0.
Proof.
  destruct (ProForma.pf default_inputs
              (with_site_growth 3 0 default_pro_forma)) as [d|e] eqn:Epf;
    [|vm_compute in Epf; discriminate].
  destruct (nth_error (records d) 2) as [r|] eqn:Er.
  - exists d, r. split; [reflexivity|]. split; [exact Er|].
    destruct (capex_floored _ _ d 2%nat r Epf Er) as (_ & _ & H).
    destruct (H ltac:(reflexivity)) as (Hs & Hc).
    split; [exact Hs | apply Hc; lia].
  - exfalso. vm_compute in Epf. inversion Epf; subst d.
    vm_compute in Er. discriminate.
Defined.

(** C6 as stated fails in year 1 for a negative capex per site: the floor
    of line 343 applies to the first year too, and the capital expenditure
    is 0, not sites x capex per site = -1000. *)
Lemma capex_year_one_floored :
  exists d r,
    ProForma.pf (with_capex (-1000) default_inputs) default_pro_forma
    = Ok d /\
    nth_error (records d) 0 = Some r /\
    CapEx_new_sites r == 0 /\
    Sites r * capex_per_site (with_capex (-1000) default_inputs) == -1000 /\
    ~ CapEx_new_sites r
      == Sites r * capex_per_site (with_capex (-1000) default_inputs).
Proof.
  eexists. eexists.
  split; [vm_compute; reflexivity|].
  split; [vm_compute; reflexivity|].
  repeat apply conj; vm_compute; congruence.
Qed.
